(** * vkquick.api: the request dispatch core of the VK API client

    A shallow embedding of [src/vkquick/api.py] (class [API]) and the
    properties of its name resolver, rate limiter, credential classifier,
    request encoder and response normaliser.

    Conventions of the embedding:
    - a Python [str] is a Rocq [string] (its UTF-8 bytes; the only pattern the
      module matches, [_(?P<let>[a-z])], is pure ASCII, and ASCII bytes never
      occur inside a multi-byte UTF-8 sequence);
    - a Python [dict] with [str] keys is a [gmap string pyval];
    - dict objects that the code shares or mutates live in a store indexed by
      locations, so that aliasing is visible;
    - [time.time()] readings, delays and sleep durations are rationals: the
      rounding of the doubles that the code computes with is not modelled,
      and no statement below rests on the arithmetic being exact;
    - code that suspends or talks to the network takes the outcome of that
      interaction as an explicit argument. *)

From Stdlib Require Import QArith Lqa Ascii String.
From stdpp Require Import gmap strings list fin_maps pretty.

#[local] Set Warnings "-register-all,-clear-no-such-hyp".
#[local] Open Scope string_scope.

(** * Python values *)

(** The values that flow through the client: request parameters, the token
    and version, and decoded JSON documents.  A [set] is given by its elements
    in iteration order. *)
Inductive pyval :=
  | PNone
  | PBool (b : bool)
  | PInt (z : Z)
  | PFloat (q : Q)
  | PStr (s : string)
  | PList (l : list pyval)
  | PTuple (l : list pyval)
  | PSet (l : list pyval)
  | PDict (d : gmap string pyval).

Abbreviation dict := (gmap string pyval).

(** Exceptions.  [vkquick.exceptions] is not part of the module: the error
    object that [VkApiError.destruct_response(response)] builds is kept
    symbolic and carries the [response] it was built from.  [External] stands
    for whatever the transport, [urllib] or the JSON parser raise. *)
Inductive exn :=
  | VkApiError (response : pyval)
  | KeyError (key : string)
  | TypeError
  | External (what : string).

Inductive outcome (A : Type) :=
  | Return (a : A)
  | Raise (e : exn).
Arguments Return {A} a.
Arguments Raise {A} e.

(** ** Builtins used by the module *)

(** [bool(v)]: Python truthiness. *)
Definition truthy (v : pyval) : bool :=
  match v with
  | PNone => false
  | PBool b => b
  | PInt z => negb (z =? 0)%Z
  | PFloat q => negb (Qeq_bool q 0)
  | PStr s => negb (String.eqb s "")
  | PList l | PTuple l | PSet l => match l with [] => false | _ => true end
  | PDict d => negb (bool_decide (d = ∅))
  end.

(** [needle in haystack] for two strings. *)
Fixpoint substringb (needle haystack : string) : bool :=
  String.prefix needle haystack
  || match haystack with
     | EmptyString => false
     | String _ rest => substringb needle rest
     end.

(** [v == s] for a string [s]: only a string equals a string. *)
Definition eq_str (s : string) (v : pyval) : bool :=
  match v with
  | PStr t => String.eqb t s
  | _ => false
  end.

(** [s in v] for a string [s]: key membership on a dict, element membership
    on a list, tuple or set, substring on a string, [TypeError] on the
    rest. *)
Definition py_in (s : string) (v : pyval) : outcome bool :=
  match v with
  | PDict d => Return (bool_decide (is_Some (d !! s)))
  | PList l | PTuple l | PSet l => Return (existsb (eq_str s) l)
  | PStr t => Return (substringb s t)
  | PNone | PBool _ | PInt _ | PFloat _ => Raise TypeError
  end.

(** [v[key]] for a string [key]: only a dict can be subscripted by a
    string. *)
Definition getitem (v : pyval) (key : string) : outcome pyval :=
  match v with
  | PDict d => match d !! key with
               | Some x => Return x
               | None => Raise (KeyError key)
               end
  | _ => Raise TypeError
  end.

(** [isinstance(value, (list, set, tuple))], with the elements when so. *)
Definition as_collection (v : pyval) : option (list pyval) :=
  match v with
  | PList l | PTuple l | PSet l => Some l
  | _ => None
  end.

(** [d.update(e)] and [{**d, **e}]: the entries of [e] win. *)
Definition dict_update (d e : dict) : dict := e ∪ d.

(** * Name resolver *)

Definition is_lower (c : ascii) : bool :=
  (97 <=? nat_of_ascii c)%nat && (nat_of_ascii c <=? 122)%nat.

(** [_upper_zero_group]: the captured group [let] is one letter of [a-z];
    its upper-case form is 32 code points below. *)
Definition _upper_zero_group (let_ : ascii) : ascii :=
  ascii_of_nat (nat_of_ascii let_ - 32).

(** [_convert_name]: [re.sub(r"_(?P<let>[a-z])", _upper_zero_group, name)].
    The scan goes left to right; a match consumes the underscore and the
    letter, and the scan resumes after the letter. *)
Fixpoint _convert_name (name : string) : string :=
  match name with
  | EmptyString => EmptyString
  | String c rest =>
      match rest with
      | String l rest' =>
          if Ascii.eqb c "_" && is_lower l
          then String (_upper_zero_group l) (_convert_name rest')
          else String c (_convert_name rest)
      | EmptyString => String c EmptyString
      end
  end.

(** The first character of a converted name is a lower-case letter only if
    the first character of the name was. *)
Definition starts_lower (s : string) : bool :=
  match s with
  | String l _ => is_lower l
  | EmptyString => false
  end.

Fixpoint has_underscore (s : string) : bool :=
  match s with
  | EmptyString => false
  | String c rest => Ascii.eqb c "_" || has_underscore rest
  end.

(** * The client *)

(** [TokenOwner]: the two credential classes. *)
Inductive TokenOwner := GROUP | USER.

#[global] Instance TokenOwner_eq_dec : EqDecision TokenOwner.
Proof. solve_decision. Defined.

(** Locations of dict objects, and the store that holds them. *)
Abbreviation loc := positive.
Abbreviation heap := (gmap positive (gmap string pyval)).

(** What [urllib.request.urlopen(url)] followed by [loads(resp.read())]
    yields for the classification probe. *)
Inductive fetched :=
  | FetchRaises (e : exn)
  | Fetched (resp : pyval).

(** What the transport and the JSON parser yield for one request:
    [write] raises, [read_body] raises, [loads] raises, or a decoded body. *)
Inductive reply :=
  | WriteRaises (e : exn)
  | ReadRaises (e : exn)
  | LoadsRaises (e : exn)
  | Loaded (body : pyval).

Definition LF : string := String (ascii_of_nat 10) EmptyString.

Section Client.

(** Python's [str] builtin and [urllib.parse.urlencode]; [W] is the type of
    the objects that [response_factory] builds. *)
Context (py_str : pyval → string) (urlencode : dict → string) {W : Type}.

(** The dataclass fields, followed by the attributes that [__post_init__]
    sets.  [requests_session] and [json_parser] are the collaborators whose
    behaviour is the [reply] of a request. *)
Record API := {
  token : string;
  version : pyval;
  autocomplete_params : loc;
  host : string;
  response_factory : pyval → W;
  _method_name : string;
  _last_request_time : Q;
  token_owner : TokenOwner;
  _delay : Q;
}.

Definition set_method_name (self : API) (name : string) : API :=
  {| token := token self; version := version self;
     autocomplete_params := autocomplete_params self; host := host self;
     response_factory := response_factory self;
     _method_name := name;
     _last_request_time := _last_request_time self;
     token_owner := token_owner self; _delay := _delay self |}.

Definition set_last_request_time (self : API) (t : Q) : API :=
  {| token := token self; version := version self;
     autocomplete_params := autocomplete_params self; host := host self;
     response_factory := response_factory self;
     _method_name := _method_name self;
     _last_request_time := t;
     token_owner := token_owner self; _delay := _delay self |}.

(** The state a call runs in: the store of dict objects, the client object,
    the queries handed to [requests_session.write] and the durations handed
    to [asyncio.sleep], both latest first. *)
Record world := {
  objects : heap;
  self : API;
  written : list string;
  slept : list Q;
}.

Definition set_objects (w : world) (h : heap) : world :=
  {| objects := h; self := self w; written := written w; slept := slept w |}.

Definition set_self (w : world) (s : API) : world :=
  {| objects := objects w; self := s; written := written w; slept := slept w |}.

(** Reading the dict behind a reference.  Every reference a Python program
    holds is live; a location outside the store reads as the empty dict. *)
Definition deref (h : heap) (l : loc) : dict := default ∅ (h !! l).

(** A new dict object. *)
Definition alloc (h : heap) (d : dict) : heap * loc :=
  let l := fresh (dom h) in (<[l := d]> h, l).

(** What a call returns: one wrapped object, a sequence of wrapped objects,
    or the value as it came. *)
Inductive result :=
  | Wrapped (x : W)
  | WrappedSeq (xs : list W)
  | Scalar (v : pyval).

(** The coroutine object that [__call__] and [method] return: the pending
    call of [_make_api_request] with its two arguments. *)
Record coroutine := {
  co_method_name : string;
  co_request_params : loc;
}.

(** ** [_check_errors] *)
Definition _check_errors (response : pyval) : outcome unit :=
  match py_in "error" response with
  | Raise e => Raise e
  | Return true => Raise (VkApiError response)
  | Return false => Return tt
  end.

(** ** [define_token_owner]
    [urlopen] maps the probe's URL to what the network and the parser
    yield. *)
Definition define_token_owner (urlopen : string → fetched)
    (token : string) (version : pyval) (host : string) : outcome TokenOwner :=
  let attached_query :=
    urlencode (<["v" := version]> (<["access_token" := PStr token]> ∅)) in
  match urlopen ("https://" ++ host ++ "/method/users.get?" ++ attached_query) with
  | FetchRaises e => Raise e
  | Fetched resp =>
      match getitem resp "response" with
      | Raise e => Raise e
      | Return response =>
          match _check_errors response with
          | Raise e => Raise e
          | Return _ => Return (if truthy response then USER else GROUP)
          end
      end
  end.

(** ** [__post_init__]: the part of construction that follows the dataclass
    field assignments. *)
Definition __post_init__ (urlopen : string → fetched)
    (token : string) (version : pyval) (autocomplete_params : loc)
    (host : string) (response_factory : pyval → W) : outcome API :=
  match define_token_owner urlopen token version "api.vk.com" with
  | Raise e => Raise e
  | Return owner =>
      Return {| token := token; version := version;
                autocomplete_params := autocomplete_params; host := host;
                response_factory := response_factory;
                _method_name := "";
                _last_request_time := 0%Q;
                token_owner := owner;
                _delay := if decide (owner = USER) then (1 # 3)%Q else (1 # 20)%Q |}
  end.

(** ** [__getattr__] *)
Definition __getattr__ (self : API) (attribute : string) : API :=
  let attribute := _convert_name attribute in
  if negb (String.eqb (_method_name self) "")
  then set_method_name self (_method_name self ++ "." ++ attribute)
  else set_method_name self attribute.

(** ** [_fill_request_params]: a new dict, the defaults first and the
    caller's entries over them. *)
Definition _fill_request_params (w : world) (params : loc) : world * loc :=
  let defaults : dict :=
    <["v" := version (self w)]> (<["access_token" := PStr (token (self w))]> ∅) in
  let '(h, l) := alloc (objects w) (dict_update defaults (deref (objects w) params)) in
  (set_objects w h, l).

(** ** [_waiting]: the suspension ([None] when [asyncio.sleep] is not
    called) and the client with its updated timestamp. *)
Definition _waiting (now : Q) (self : API) : option Q * API :=
  let diff := (now - _last_request_time self)%Q in
  if Qlt_le_dec diff (_delay self)
  then
    let wait_time := (_delay self - diff)%Q in
    (Some wait_time, set_last_request_time self (_last_request_time self + _delay self)%Q)
  else (None, set_last_request_time self now).

(** ** The flattening loop of [_make_api_request]
    [for key, value in request_params.items()]: every key is visited once,
    with the value it holds, and only the entry of the visited key is
    assigned. *)
Definition flatten_step (request_params : dict) (item : string * pyval) : dict :=
  match as_collection item.2 with
  | Some value => <[item.1 := PStr (String.concat "," (map py_str value))]> request_params
  | None => request_params
  end.

Definition flatten_request_params (request_params : dict) : dict :=
  foldl flatten_step request_params (map_to_list request_params).

(** ** [_make_api_request]
    [now] is the reading of [time.time()] inside [_waiting]; [transport]
    maps the query written to what comes back. *)
Definition _make_api_request (w : world) (method_name : string)
    (request_params : loc) (now : Q) (transport : string → reply)
    : world * outcome result :=
  let w := set_objects w
             (<[request_params := flatten_request_params (deref (objects w) request_params)]>
                (objects w)) in
  let data := urlencode (deref (objects w) request_params) in
  let '(suspension, self') := _waiting now (self w) in
  let w := {| objects := objects w; self := self'; written := written w;
              slept := match suspension with
                       | Some wait_time => wait_time :: slept w
                       | None => slept w
                       end |} in
  let query :=
    "GET /method/" ++ method_name ++ "?" ++ data ++ " HTTP/1.1" ++ LF
    ++ "Host: " ++ host (self w) ++ LF ++ LF in
  let w := {| objects := objects w; self := self w;
              written := query :: written w; slept := slept w |} in
  match transport query with
  | WriteRaises e | ReadRaises e | LoadsRaises e => (w, Raise e)
  | Loaded body =>
      match _check_errors body with
      | Raise e => (w, Raise e)
      | Return _ =>
          match getitem body "response" with
          | Raise e => (w, Raise e)
          | Return response =>
              match response with
              | PDict _ => (w, Return (Wrapped (response_factory (self w) response)))
              | PList l => (w, Return (WrappedSeq (map (response_factory (self w)) l)))
              | _ => (w, Return (Scalar response))
              end
          end
      end
  end.

(** The query that a request writes, and what it returns for what the
    transport yields: the two halves of [_make_api_request], for stating its
    properties. *)
Definition query_of (w : world) (method_name : string) (request_params : loc) : string :=
  "GET /method/" ++ method_name ++ "?"
  ++ urlencode (flatten_request_params (deref (objects w) request_params))
  ++ " HTTP/1.1" ++ LF ++ "Host: " ++ host (self w) ++ LF ++ LF.

Definition returned_for (w : world) (net : reply) : outcome result :=
  match net with
  | WriteRaises e | ReadRaises e | LoadsRaises e => Raise e
  | Loaded body =>
      match _check_errors body with
      | Raise e => Raise e
      | Return _ =>
          match getitem body "response" with
          | Raise e => Raise e
          | Return response =>
              match response with
              | PDict _ => Return (Wrapped (response_factory (self w) response))
              | PList l => Return (WrappedSeq (map (response_factory (self w)) l))
              | _ => Return (Scalar response)
              end
          end
      end
  end.

(** ** [__call__]
    [request_params] is the dict of keyword arguments. *)
Definition __call__ (w : world) (use_autocomplete_params_ : bool)
    (request_params : loc) : world * coroutine :=
  let method_name := _convert_name (_method_name (self w)) in
  let '(w, request_params) := _fill_request_params w request_params in
  let w :=
    if use_autocomplete_params_
    then set_objects w
           (<[request_params :=
                dict_update (deref (objects w) request_params)
                            (deref (objects w) (autocomplete_params (self w)))]>
              (objects w))
    else w in
  let w := set_self w (set_method_name (self w) "") in
  (w, {| co_method_name := method_name; co_request_params := request_params |}).

(** ** [method] *)
Definition method (w : world) (method_name : string) (request_params : loc)
    : world * coroutine :=
  let method_name := _convert_name method_name in
  let '(w, request_params) := _fill_request_params w request_params in
  (w, {| co_method_name := method_name; co_request_params := request_params |}).

(** Awaiting the coroutine runs the body of [_make_api_request]. *)
Definition await (w : world) (co : coroutine) (now : Q)
    (transport : string → reply) : world * outcome result :=
  _make_api_request w (co_method_name co) (co_request_params co) now transport.

End Client.

Arguments API W : clear implicits.
Arguments world W : clear implicits.
Arguments result W : clear implicits.

(** * Predicates used in the statements *)

(** An underscore directly followed by a letter of [a-z]: what the pattern
    of [_convert_name] matches. *)
Fixpoint has_snake_pair (s : string) : bool :=
  match s with
  | EmptyString => false
  | String c rest => (Ascii.eqb c "_" && starts_lower rest) || has_snake_pair rest
  end.

(** [isinstance(v, dict)]. *)
Definition is_mapping (v : pyval) : bool :=
  match v with
  | PDict _ => true
  | _ => false
  end.

(** The interval that [__post_init__] associates with the class. *)
Definition interval_matches_class {W} (self : API W) : Prop :=
  _delay self = if decide (token_owner self = USER) then (1 # 3)%Q else (1 # 20)%Q.

(** * Concrete instances for the examples *)

(** [str] on the scalars the examples use. *)
Definition str_scalar (v : pyval) : string :=
  match v with
  | PInt z => pretty z
  | PStr s => s
  | PNone => "None"
  | PBool true => "True"
  | PBool false => "False"
  | _ => ""
  end.

(** A stand-in for [urlencode] in the examples only, and not
    [urllib.parse.urlencode]: the entries come in the order of the map, not
    in insertion order, and nothing is percent-quoted.  The theorems are
    stated for every [urlencode]. *)
Definition urlencode_plain (d : dict) : string :=
  String.concat "&" (map (λ kv : string * pyval, kv.1 ++ "=" ++ str_scalar kv.2) (map_to_list d)).

(** A user-token client as [__post_init__] leaves it; the wrapper is the
    identity view of the decoded value. *)
Definition user_client : API pyval :=
  {| token := "mytoken"; version := PStr "5.133";
     autocomplete_params := 1%positive; host := "api.vk.com";
     response_factory := λ v, v;
     _method_name := "";
     _last_request_time := 0%Q;
     token_owner := USER;
     _delay := (1 # 3)%Q |}.

(** A world with the client, its [autocomplete_params] at location 1 and a
    caller's dict at location 2. *)
Definition sample_world : world pyval :=
  {| objects :=
       <[2%positive := <["v" := PStr "5.81"]> (<["user_ids" := PList [PInt 1; PInt 2; PInt 3]]> ∅)]>
         (<[1%positive := <["group_id" := PInt 123]> (<["v" := PStr "5.92"]> ∅)]> ∅);
     self := user_client;
     written := [];
     slept := [] |}.

(** The envelope of a rejected credential. *)
Definition bad_token_envelope : pyval :=
  PDict (<["error" := PDict (<["error_code" := PInt 5]> (<["error_msg" := PStr "bad token"]> ∅))]> ∅).

(** * Name resolver: properties *)

Example convert_snake :
  _convert_name "get_conversations_by_id" = "getConversationsById".
Proof. reflexivity. Qed.

Example convert_dotted :
  _convert_name "messages.get_by_id" = "messages.getById".
Proof. reflexivity. Qed.

Example convert_double_underscore : _convert_name "a__b_" = "a_B_".
Proof. reflexivity. Qed.

Lemma upper_not_lower l : is_lower l = true → is_lower (_upper_zero_group l) = false.
Proof.
  destruct l as [[] [] [] [] [] [] [] []]; vm_compute; congruence.
Qed.

Lemma upper_not_underscore l :
  is_lower l = true → Ascii.eqb (_upper_zero_group l) "_" = false.
Proof.
  destruct l as [[] [] [] [] [] [] [] []]; vm_compute; congruence.
Qed.

(** One unfolding of the scan, by the first character. *)
Lemma convert_cons_other c rest :
  Ascii.eqb c "_" = false → _convert_name (String c rest) = String c (_convert_name rest).
Proof.
  intros Hc. destruct rest as [|l rest']; [reflexivity|].
  cbn [_convert_name]. rewrite Hc. reflexivity.
Qed.

Lemma convert_underscore_match l rest :
  is_lower l = true →
  _convert_name (String "_" (String l rest)) = String (_upper_zero_group l) (_convert_name rest).
Proof. intros Hl. cbn [_convert_name]. rewrite Hl. reflexivity. Qed.

Lemma convert_underscore_skip rest :
  match rest with String l _ => is_lower l = false | EmptyString => True end →
  _convert_name (String "_" rest) = String "_" (_convert_name rest).
Proof.
  destruct rest as [|l rest']; [reflexivity|].
  intros Hl. cbn [_convert_name]. rewrite Hl. reflexivity.
Qed.

Lemma convert_starts_lower s :
  starts_lower s = false → starts_lower (_convert_name s) = false.
Proof.
  destruct s as [|c [|l rest]]; [done..|].
  cbn [_convert_name starts_lower].
  destruct (Ascii.eqb c "_" && is_lower l) eqn:E; [|done].
  intros _. apply andb_true_iff in E as [_ Hl]. by apply upper_not_lower.
Qed.

Lemma convert_idempotent_upto n :
  ∀ s, (String.length s ≤ n)%nat → _convert_name (_convert_name s) = _convert_name s.
Proof.
  induction n as [|n IH]; intros s Hlen.
  { destruct s; [reflexivity | simpl in Hlen; lia]. }
  destruct s as [|c rest]; [reflexivity|].
  simpl in Hlen.
  destruct (Ascii.eqb c "_") eqn:Hc.
  - apply Ascii.eqb_eq in Hc as ->.
    destruct rest as [|l rest']; [reflexivity|].
    destruct (is_lower l) eqn:Hl.
    + rewrite convert_underscore_match by done.
      rewrite convert_cons_other by (by apply upper_not_underscore).
      rewrite IH; [done | simpl in Hlen; lia].
    + rewrite (convert_underscore_skip (String l rest')) by done.
      rewrite convert_underscore_skip.
      * rewrite IH; [done | lia].
      * pose proof (convert_starts_lower (String l rest') Hl) as Hs.
        destruct (_convert_name (String l rest')); [done | exact Hs].
  - rewrite convert_cons_other by done.
    rewrite convert_cons_other by done.
    rewrite IH; [done | lia].
Qed.

Lemma convert_idempotent s : _convert_name (_convert_name s) = _convert_name s.
Proof. by apply (convert_idempotent_upto (String.length s)). Qed.

Lemma convert_no_underscore s : has_underscore s = false → _convert_name s = s.
Proof.
  induction s as [|c rest IH]; [reflexivity|].
  simpl has_underscore. intros [Hc Hrest]%orb_false_iff.
  rewrite convert_cons_other by done. by rewrite IH.
Qed.

(** Conversion never looks across a dot: it distributes over the joining of
    two segments. *)
Lemma append_cons c s t : String c s ++ t = String c (s ++ t).
Proof. reflexivity. Qed.

Lemma append_empty t : "" ++ t = t.
Proof. reflexivity. Qed.

Lemma convert_app_dot_upto n :
  ∀ a b, (String.length a ≤ n)%nat →
    _convert_name (a ++ "." ++ b) = _convert_name a ++ "." ++ _convert_name b.
Proof.
  induction n as [|n IH]; intros a b Hlen.
  { destruct a; [|simpl in Hlen; lia].
    rewrite !append_empty, !append_cons, append_empty.
    by rewrite convert_cons_other. }
  destruct a as [|c rest].
  { rewrite !append_empty, !append_cons, append_empty.
    by rewrite convert_cons_other. }
  simpl in Hlen. rewrite append_cons.
  destruct (Ascii.eqb c "_") eqn:Hc.
  - apply Ascii.eqb_eq in Hc as ->.
    destruct rest as [|l rest'].
    { rewrite !append_empty, !append_cons, !append_empty.
      rewrite convert_underscore_skip by done. by rewrite convert_cons_other. }
    destruct (is_lower l) eqn:Hl.
    + rewrite append_cons, !convert_underscore_match by done.
      rewrite IH, append_cons; [done | simpl in Hlen; lia].
    + rewrite (convert_underscore_skip (String l rest')) by done.
      rewrite convert_underscore_skip by (by rewrite append_cons).
      rewrite IH, append_cons; [done | lia].
  - rewrite !convert_cons_other by done.
    rewrite IH, append_cons; [done | lia].
Qed.

Lemma convert_app_dot a b :
  _convert_name (a ++ "." ++ b) = _convert_name a ++ "." ++ _convert_name b.
Proof. by apply (convert_app_dot_upto (String.length a)). Qed.

(** [__getattr__] keeps the accumulated name a fixed point of the
    conversion. *)
Lemma getattr_keeps_converted {W} (self : API W) attribute :
  _convert_name (_method_name self) = _method_name self →
  _convert_name (_method_name (__getattr__ self attribute))
  = _method_name (__getattr__ self attribute).
Proof.
  intros Hfix. unfold __getattr__.
  destruct (negb (String.eqb (_method_name self) "")); simpl.
  - by rewrite convert_app_dot, Hfix, convert_idempotent.
  - apply convert_idempotent.
Qed.

Lemma getattr_chain_converted {W} (attributes : list string) :
  ∀ self : API W,
    _convert_name (_method_name self) = _method_name self →
    _convert_name (_method_name (foldl __getattr__ self attributes))
    = _method_name (foldl __getattr__ self attributes).
Proof.
  induction attributes as [|a rest IH]; intros self Hfix; [done|].
  simpl. apply IH. by apply getattr_keeps_converted.
Qed.

(** C7: [_convert_name] is idempotent on every string; a string without
    underscores is left as it is; and the conversion that [__call__] applies
    to the name accumulated by [__getattr__] (from the empty accumulator)
    returns that name unchanged. *)
Theorem convert_name_idempotent :
  (∀ x, _convert_name (_convert_name x) = _convert_name x)
  ∧ (∀ x, has_underscore x = false → _convert_name x = x)
  ∧ (∀ W (w : world W) (attributes : list string) use_autocomplete_params_ request_params,
       _method_name (self w) = "" →
       let accumulated := _method_name (foldl __getattr__ (self w) attributes) in
       co_method_name
         (__call__ (set_self w (foldl __getattr__ (self w) attributes))
                   use_autocomplete_params_ request_params).2
       = accumulated).
Proof.
  split; [exact convert_idempotent|]. split; [exact convert_no_underscore|].
  intros W w attributes use_auto rp Hempty. simpl.
  unfold __call__, _fill_request_params, alloc. simpl.
  apply getattr_chain_converted. by rewrite Hempty.
Qed.


Lemma convert_name_idempotent_witness :
  _convert_name (_convert_name "messages.get_by_id") = _convert_name "messages.get_by_id"
  ∧ _convert_name "getById" = "getById"
  ∧ co_method_name
      (__call__ (set_self sample_world (foldl __getattr__ user_client ["messages"; "get_by_id"]))
                false 2%positive).2
    = "messages.getById".
Proof.
  destruct convert_name_idempotent as (Hidem & Hplain & Hcall).
  split; [apply Hidem|]. split; [apply Hplain; reflexivity|].
  apply (Hcall pyval sample_world ["messages"; "get_by_id"] false 2%positive).
  reflexivity.
Defined.

(** * Rate limiter: properties *)

(** C1: with a positive minimum interval, a call of [_waiting] that finds
    [elapsed = now - _last_request_time] at least the interval does not
    suspend and records [now]; one that finds it smaller suspends for
    exactly [_delay - elapsed] and records the previous timestamp plus the
    interval. *)
Theorem waiting_schedule {W} (self : API W) (now : Q) :
  (0 < _delay self)%Q →
  let elapsed := (now - _last_request_time self)%Q in
  ((_delay self <= elapsed)%Q →
     _waiting now self = (None, set_last_request_time self now))
  ∧ ((elapsed < _delay self)%Q →
     _waiting now self
     = (Some (_delay self - elapsed)%Q,
        set_last_request_time self (_last_request_time self + _delay self)%Q)).
Proof.
  intros _ elapsed. unfold _waiting. fold elapsed.
  destruct (Qlt_le_dec elapsed (_delay self)) as [Hlt | Hle]; split; intros H.
  - exfalso. exact (Qlt_not_le _ _ Hlt H).
  - reflexivity.
  - reflexivity.
  - exfalso. exact (Qlt_not_le _ _ H Hle).
Qed.

Lemma waiting_schedule_witness :
  _waiting (1 # 2)%Q user_client = (None, set_last_request_time user_client (1 # 2)%Q)
  ∧ _waiting (7 # 12)%Q (set_last_request_time user_client (1 # 2)%Q)
    = (Some ((1 # 3) - ((7 # 12) - (1 # 2)))%Q,
       set_last_request_time (set_last_request_time user_client (1 # 2)%Q)
                             ((1 # 2) + (1 # 3))%Q).
Proof.
  split.
  - destruct (waiting_schedule user_client (1 # 2)%Q) as [Hgrant _]; [reflexivity|].
    apply Hgrant. vm_compute. discriminate.
  - destruct (waiting_schedule (set_last_request_time user_client (1 # 2)%Q) (7 # 12)%Q)
      as [_ Hwait]; [reflexivity|].
    apply Hwait. reflexivity.
Defined.

(** * Credential classifier: properties *)

Lemma no_error_among_mappings (users : list pyval) :
  forallb is_mapping users = true → existsb (eq_str "error") users = false.
Proof.
  induction users as [|user users IH]; [done|].
  simpl. intros [Huser Husers]%andb_true_iff.
  rewrite IH by done. by destruct user.
Qed.

Section Classifier.

Context (urlencode : dict → string) {W : Type}.
Context (token : string) (version : pyval) (autocomplete_params : loc)
        (host : string) (response_factory : pyval → W).

(** The probe checks the value under ["response"], not the envelope: an
    envelope without that key never reaches [_check_errors]. *)
Lemma define_token_owner_missing_response urlopen env :
  (∀ url, urlopen url = Fetched (PDict env)) →
  env !! "response" = None →
  define_token_owner urlencode urlopen token version host = Raise (KeyError "response").
Proof.
  intros Hnet Hnone. unfold define_token_owner. rewrite Hnet. simpl.
  by rewrite Hnone.
Qed.

(** When the value under ["response"] passes the probe's check, its
    truthiness selects the class, and the class selects the interval. *)
Lemma post_init_on_checked_response urlopen env response :
  (∀ url, urlopen url = Fetched (PDict env)) →
  env !! "response" = Some response →
  _check_errors response = Return tt →
  ∃ api,
    __post_init__ urlencode urlopen token version autocomplete_params host response_factory
    = Return api
    ∧ token_owner api = (if truthy response then USER else GROUP)
    ∧ _delay api = (if truthy response then (1 # 3)%Q else (1 # 20)%Q)
    ∧ _method_name api = "" ∧ _last_request_time api = 0%Q.
Proof.
  intros Hnet Hresp Hcheck.
  unfold __post_init__, define_token_owner. rewrite Hnet. simpl.
  rewrite Hresp, Hcheck.
  eexists. split; [reflexivity|]. simpl.
  by destruct (truthy response).
Qed.

(** C3, at the envelope of a rejected credential: the probe subscripts the
    envelope with ["response"] before any check, so what is raised is
    [KeyError], not the typed API error; and an envelope that carries both
    keys is classified as a group token without any error. *)
Theorem probe_on_error_envelope :
  define_token_owner urlencode (λ _, Fetched bad_token_envelope) token version host
  = Raise (KeyError "response")
  ∧ define_token_owner urlencode
      (λ _, Fetched (PDict (<["response" := PList []]>
                              (<["error" := PDict (<["error_code" := PInt 5]> ∅)]> ∅))))
      token version host
    = Return GROUP.
Proof. split; reflexivity. Qed.

(** C4: the probe accepts every ["response"] value in which ["error"] is not
    found, in particular every list of user objects, the empty list included,
    which is what [users.get] answers.  On an accepted value construction
    returns a client: an empty value gives the group class and the interval
    1/20, a non-empty one the user class and the interval 1/3; and 1/3 is the
    longer of the two, 20/3 times 1/20, between 6 and 7 times. *)
Theorem probe_selects_class_and_interval urlopen env response :
  (∀ url, urlopen url = Fetched (PDict env)) →
  env !! "response" = Some response →
  (∀ users, response = PList users → forallb is_mapping users = true →
     _check_errors response = Return tt)
  ∧ (_check_errors response = Return tt →
     ∃ api,
       __post_init__ urlencode urlopen token version autocomplete_params host response_factory
       = Return api
       ∧ (truthy response = false →
          token_owner api = GROUP ∧ _delay api = (1 # 20)%Q)
       ∧ (truthy response = true →
          token_owner api = USER ∧ _delay api = (1 # 3)%Q))
  ∧ ((1 # 20) < (1 # 3))%Q
  ∧ ((1 # 3) / (1 # 20) == 20 # 3)%Q
  ∧ (6 < (1 # 3) / (1 # 20))%Q ∧ ((1 # 3) / (1 # 20) < 7)%Q.
Proof.
  intros Hnet Hresponse. split; [|split].
  - intros users -> Husers. unfold _check_errors. simpl.
    by rewrite no_error_among_mappings.
  - intros Hcheck.
    destruct (post_init_on_checked_response urlopen env response Hnet Hresponse Hcheck)
      as (api & Hbuilt & Howner & Hdelay & _).
    exists api. split; [done|].
    rewrite Howner, Hdelay. split; by intros ->.
  - repeat split.
Qed.

(** The misplaced check of the probe at work, on a value that [users.get]
    does not answer: a response with the string ["error"] among its elements
    is taken for an error. *)
Lemma post_init_on_response_containing_error :
  __post_init__ urlencode
    (λ _, Fetched (PDict (<["response" := PList [PStr "error"]]> ∅)))
    token version autocomplete_params host response_factory
  = Raise (VkApiError (PList [PStr "error"])).
Proof. reflexivity. Qed.

End Classifier.

Lemma probe_selects_class_and_interval_witness :
  (∃ api, __post_init__ urlencode_plain (λ _, Fetched (PDict (<["response" := PList []]> ∅)))
            "mytoken" (PStr "5.133") 1%positive "api.vk.com" (λ v : pyval, v) = Return api
          ∧ token_owner api = GROUP ∧ _delay api = (1 # 20)%Q)
  ∧ (∃ api, __post_init__ urlencode_plain
              (λ _, Fetched (PDict (<["response" := PList [PDict (<["id" := PInt 1]> ∅)]]> ∅)))
              "mytoken" (PStr "5.133") 1%positive "api.vk.com" (λ v : pyval, v) = Return api
            ∧ token_owner api = USER ∧ _delay api = (1 # 3)%Q).
Proof.
  split.
  - destruct (probe_selects_class_and_interval urlencode_plain "mytoken" (PStr "5.133")
                1%positive "api.vk.com" (λ v : pyval, v)
                (λ _, Fetched (PDict (<["response" := PList []]> ∅)))
                (<["response" := PList []]> ∅) (PList []))
      as (Haccepted & Hselected & _); [done..|].
    destruct (Hselected (Haccepted [] eq_refl eq_refl)) as (api & Hbuilt & Hgroup & _).
    exists api. split; [exact Hbuilt|]. exact (Hgroup eq_refl).
  - destruct (probe_selects_class_and_interval urlencode_plain "mytoken" (PStr "5.133")
                1%positive "api.vk.com" (λ v : pyval, v)
                (λ _, Fetched (PDict (<["response" := PList [PDict (<["id" := PInt 1]> ∅)]]> ∅)))
                (<["response" := PList [PDict (<["id" := PInt 1]> ∅)]]> ∅)
                (PList [PDict (<["id" := PInt 1]> ∅)]))
      as (Haccepted & Hselected & _); [done..|].
    destruct (Hselected (Haccepted [PDict (<["id" := PInt 1]> ∅)] eq_refl eq_refl))
      as (api & Hbuilt & _ & Huser).
    exists api. split; [exact Hbuilt|]. exact (Huser eq_refl).
Defined.

(** The two probe answers of the remote API: [[]] for a group token, one
    user object for a user token. *)
Example post_init_group_token :
  ∃ api, __post_init__ urlencode_plain (λ _, Fetched (PDict (<["response" := PList []]> ∅)))
           "mytoken" (PStr "5.133") 1%positive "api.vk.com" (λ v : pyval, v) = Return api
         ∧ token_owner api = GROUP ∧ _delay api = (1 # 20)%Q.
Proof. eexists. split; [reflexivity|]. split; reflexivity. Qed.

Example post_init_user_token :
  __post_init__ urlencode_plain
    (λ _, Fetched (PDict (<["response" := PList [PDict (<["id" := PInt 1]> ∅)]]> ∅)))
    "mytoken" (PStr "5.133") 1%positive "api.vk.com" (λ v : pyval, v)
  = Return user_client.
Proof. reflexivity. Qed.

(** The user interval is the longer one: 20/3 of the group interval. *)
Lemma user_interval_ratio :
  ((1 # 20) < (1 # 3))%Q ∧ ((1 # 3) / (1 # 20) == 20 # 3)%Q
  ∧ (6 < (1 # 3) / (1 # 20))%Q ∧ ((1 # 3) / (1 # 20) < 7)%Q.
Proof. repeat split. Qed.

(** * The request: frame lemmas *)

Section Request.

Context (py_str : pyval → string) (urlencode : dict → string) {W : Type}.

(** [_waiting] assigns [_last_request_time] and nothing else. *)
Lemma waiting_frame (now : Q) (self : API W) :
  (_waiting now self).2
  = set_last_request_time self (_last_request_time (_waiting now self).2).
Proof. unfold _waiting. by destruct (Qlt_le_dec _ _). Qed.

Lemma waiting_method_name (now : Q) (self : API W) :
  _method_name (_waiting now self).2 = _method_name self.
Proof. by rewrite waiting_frame. Qed.

Lemma waiting_response_factory (now : Q) (self : API W) :
  response_factory (_waiting now self).2 = response_factory self.
Proof. by rewrite waiting_frame. Qed.

Lemma waiting_host (now : Q) (self : API W) :
  host (_waiting now self).2 = host self.
Proof. by rewrite waiting_frame. Qed.

Lemma deref_insert_eq (h : heap) (l : loc) (d : dict) : deref (<[l := d]> h) l = d.
Proof. unfold deref. by rewrite lookup_insert_eq. Qed.

Lemma deref_insert_ne (h : heap) (l l' : loc) (d : dict) :
  l ≠ l' → deref (<[l := d]> h) l' = deref h l'.
Proof. intros Hne. unfold deref. by rewrite lookup_insert_ne. Qed.

Lemma deref_lookup (h : heap) (l : loc) (d : dict) : h !! l = Some d → deref h l = d.
Proof. intros Hl. unfold deref. by rewrite Hl. Qed.

(** [_make_api_request], effect by effect. *)
Lemma make_api_request_spec (w : world W) method_name request_params now transport :
  let run := _make_api_request py_str urlencode w method_name request_params now transport in
  objects run.1
  = <[request_params := flatten_request_params py_str (deref (objects w) request_params)]>
      (objects w)
  ∧ self run.1 = (_waiting now (self w)).2
  ∧ written run.1 = query_of py_str urlencode w method_name request_params :: written w
  ∧ slept run.1 = match (_waiting now (self w)).1 with
                  | Some wait_time => wait_time :: slept w
                  | None => slept w
                  end
  ∧ run.2 = returned_for w (transport (query_of py_str urlencode w method_name request_params)).
Proof.
  unfold _make_api_request, query_of, returned_for.
  cbn [set_objects self objects written slept].
  pose proof (waiting_host now (self w)) as Hhost.
  pose proof (waiting_response_factory now (self w)) as Hrf.
  destruct (_waiting now (self w)) as [suspension self']. cbn [fst snd] in Hhost, Hrf |- *.
  cbn [set_objects self objects written slept].
  rewrite !deref_insert_eq, !Hhost.
  destruct (transport _) as [e|e|e|body]; cbn -[_check_errors getitem]; try done.
  destruct (_check_errors body); [|done].
  destruct (getitem body "response") as [response|]; [|done].
  rewrite Hrf. by destruct response.
Qed.

End Request.

(** * Response normaliser: properties *)

Section Normaliser.

Context (py_str : pyval → string) (urlencode : dict → string) {W : Type}.

(** On a decoded mapping, [_check_errors] raises exactly when the key
    ["error"] is present, and what it raises is the typed error. *)
Lemma check_errors_dict (env : dict) :
  _check_errors (PDict env)
  = if bool_decide (is_Some (env !! "error"))
    then Raise (VkApiError (PDict env)) else Return tt.
Proof. unfold _check_errors. simpl. by destruct (bool_decide _). Qed.

(** C2: for a decoded envelope [env] (a mapping), the request raises the
    typed API error if and only if [env] has the key ["error"]; otherwise a
    mapping under ["response"] is returned wrapped by [response_factory], a
    list (a decoded JSON array) is returned as the list of its wrapped
    elements, in order, and any other value is returned as it is. *)
Theorem normalize_envelope (w : world W) (method_name : string)
    (request_params : loc) (now : Q) (env : dict) :
  let returned :=
    (_make_api_request py_str urlencode w method_name request_params now
       (λ _, Loaded (PDict env))).2 in
  let wrap := response_factory (self w) in
  ((∃ response, returned = Raise (VkApiError response)) ↔ is_Some (env !! "error"))
  ∧ (is_Some (env !! "error") → returned = Raise (VkApiError (PDict env)))
  ∧ (env !! "error" = None →
     ∀ response, env !! "response" = Some response →
       returned =
         match response with
         | PDict _ => Return (Wrapped (wrap response))
         | PList elements =>
             Return (WrappedSeq (map wrap elements))
         | _ => Return (Scalar response)
         end).
Proof.
  intros returned wrap.
  destruct (make_api_request_spec py_str urlencode w method_name request_params now
              (λ _, Loaded (PDict env))) as (_ & _ & _ & _ & Hret).
  fold returned in Hret. rewrite Hret. clear Hret returned.
  unfold returned_for. rewrite check_errors_dict. fold wrap.
  destruct (env !! "error") as [err|] eqn:Herr.
  - rewrite bool_decide_eq_true_2 by eauto.
    split; [split; eauto|]. split; [done|]. intros ?; discriminate.
  - rewrite bool_decide_eq_false_2 by (intros [? ?]; discriminate).
    split; [|split].
    + split; [|intros [? ?]; discriminate].
      intros [response Hraise]. simpl in Hraise.
      destruct (env !! "response") as [[]|]; discriminate.
    + intros [? ?]; discriminate.
    + intros _ response Hresp. simpl. rewrite Hresp. by destruct response.
Qed.

End Normaliser.

Lemma normalize_envelope_witness :
  let run env :=
    (_make_api_request str_scalar urlencode_plain sample_world "users.get" 2%positive 1%Q
       (λ _, Loaded (PDict env))).2 in
  run (<["error" := PDict (<["error_code" := PInt 5]> ∅)]> ∅)
  = Raise (VkApiError (PDict (<["error" := PDict (<["error_code" := PInt 5]> ∅)]> ∅)))
  ∧ run (<["response" := PList [PDict (<["id" := PInt 1]> ∅); PDict (<["id" := PInt 2]> ∅)]]> ∅)
    = Return (WrappedSeq [PDict (<["id" := PInt 1]> ∅); PDict (<["id" := PInt 2]> ∅)])
  ∧ run (<["response" := PDict (<["title" := PStr "chat"]> ∅)]> ∅)
    = Return (Wrapped (PDict (<["title" := PStr "chat"]> ∅)))
  ∧ run (<["response" := PInt 1]> ∅) = Return (Scalar (PInt 1)).
Proof.
  intros run.
  pose proof (normalize_envelope str_scalar urlencode_plain sample_world "users.get" 2%positive 1%Q)
    as Hnorm.
  split; [|split; [|split]].
  - destruct (Hnorm (<["error" := PDict (<["error_code" := PInt 5]> ∅)]> ∅)) as (_ & Herr & _).
    apply Herr. by eexists.
  - destruct (Hnorm (<["response" := PList [PDict (<["id" := PInt 1]> ∅);
                                             PDict (<["id" := PInt 2]> ∅)]]> ∅))
      as (_ & _ & Hok).
    exact (Hok eq_refl _ eq_refl).
  - destruct (Hnorm (<["response" := PDict (<["title" := PStr "chat"]> ∅)]> ∅)) as (_ & _ & Hok).
    exact (Hok eq_refl _ eq_refl).
  - destruct (Hnorm (<["response" := PInt 1]> ∅)) as (_ & _ & Hok).
    exact (Hok eq_refl _ eq_refl).
Defined.

(** * Request encoder: properties *)

Section Encoder.

Context (py_str : pyval → string) (urlencode : dict → string) {W : Type}.

(** The value that the loop leaves under a key that held [v]. *)
Lemma flatten_step_lookup (request_params : dict) (item : string * pyval) (k : string) :
  flatten_step py_str request_params item !! k
  = match as_collection item.2 with
    | Some value =>
        if decide (item.1 = k)
        then Some (PStr (String.concat "," (map py_str value)))
        else request_params !! k
    | None => request_params !! k
    end.
Proof.
  unfold flatten_step. destruct (as_collection item.2); [|done].
  apply lookup_insert.
Qed.

(** Keys that the loop does not visit keep their entry. *)
Lemma flatten_loop_unvisited (items : list (string * pyval)) :
  ∀ (request_params : dict) (k : string),
    k ∉ items.*1 →
    foldl (flatten_step py_str) request_params items !! k = request_params !! k.
Proof.
  induction items as [|item items IH]; intros request_params k Hk; [done|].
  simpl in *. apply not_elem_of_cons in Hk as [Hne Hk].
  rewrite IH by done. rewrite flatten_step_lookup.
  destruct (as_collection item.2); [|done].
  by rewrite decide_False.
Qed.

(** A key visited once gets its value joined when it is a collection, and
    keeps its entry otherwise. *)
Lemma flatten_loop_visited (items : list (string * pyval)) :
  ∀ (request_params : dict) (k : string) (v : pyval),
    NoDup items.*1 → (k, v) ∈ items →
    foldl (flatten_step py_str) request_params items !! k
    = match as_collection v with
      | Some value => Some (PStr (String.concat "," (map py_str value)))
      | None => request_params !! k
      end.
Proof.
  induction items as [|item items IH]; intros request_params k v Hnodup Hin.
  { by apply elem_of_nil in Hin. }
  simpl in *. apply NoDup_cons in Hnodup as [Hfresh Hnodup].
  apply elem_of_cons in Hin as [<- | Hin].
  - rewrite flatten_loop_unvisited by done.
    rewrite flatten_step_lookup. simpl.
    destruct (as_collection v); [|done]. by rewrite decide_True.
  - rewrite (IH _ k v) by done.
    destruct (as_collection v); [done|].
    rewrite flatten_step_lookup.
    destruct (as_collection item.2); [|done].
    rewrite decide_False; [done|].
    intros Heq. apply Hfresh. rewrite Heq.
    apply list_elem_of_fmap. by exists (k, v).
Qed.

Lemma flatten_request_params_lookup (request_params : dict) (k : string) :
  flatten_request_params py_str request_params !! k
  = match request_params !! k with
    | Some v =>
        match as_collection v with
        | Some value => Some (PStr (String.concat "," (map py_str value)))
        | None => Some v
        end
    | None => None
    end.
Proof.
  unfold flatten_request_params.
  destruct (request_params !! k) as [v|] eqn:Hk.
  - rewrite (flatten_loop_visited _ _ k v).
    + by rewrite Hk.
    + apply NoDup_fst_map_to_list.
    + by apply elem_of_map_to_list.
  - rewrite flatten_loop_unvisited; [done|].
    intros ([k' v] & -> & Hin)%list_elem_of_fmap.
    apply elem_of_map_to_list in Hin. simpl in Hk. congruence.
Qed.

(** C6: in the dict that a request encodes, a parameter that held a list or
    a tuple holds the comma-joined string of the [str] forms of its elements,
    in their order; a parameter that held anything but a list, set or tuple
    holds the value it held.  The query written is built from that dict. *)
Theorem collections_are_comma_joined (w : world W) (method_name : string)
    (request_params : loc) (now : Q) (transport : string → reply)
    (params : dict) (key : string) (value : pyval) :
  objects w !! request_params = Some params →
  params !! key = Some value →
  let after :=
    (_make_api_request py_str urlencode w method_name request_params now transport).1 in
  ∃ encoded : dict,
    objects after !! request_params = Some encoded
    ∧ written after
      = ("GET /method/" ++ method_name ++ "?" ++ urlencode encoded ++ " HTTP/1.1" ++ LF
         ++ "Host: " ++ host (self w) ++ LF ++ LF) :: written w
    ∧ (∀ elements, value = PList elements ∨ value = PTuple elements →
         encoded !! key = Some (PStr (String.concat "," (map py_str elements))))
    ∧ (as_collection value = None → encoded !! key = Some value).
Proof.
  intros Hparams Hkey after.
  destruct (make_api_request_spec py_str urlencode w method_name request_params now transport)
    as (Hobjects & _ & Hwritten & _).
  fold after in Hobjects, Hwritten.
  exists (flatten_request_params py_str params).
  rewrite Hobjects, Hwritten. unfold query_of.
  rewrite (deref_lookup _ _ _ Hparams), lookup_insert_eq.
  split; [done|]. split; [done|].
  rewrite flatten_request_params_lookup, Hkey.
  split.
  - by intros elements [-> | ->].
  - by intros ->.
Qed.

End Encoder.

Example flatten_user_ids :
  flatten_request_params str_scalar
    (<["user_ids" := PList [PInt 1; PInt 2; PInt 3]]> (<["v" := PStr "5.81"]> ∅))
  = <["user_ids" := PStr "1,2,3"]> (<["v" := PStr "5.81"]> ∅).
Proof. by vm_compute. Qed.

Lemma collections_are_comma_joined_witness :
  ∃ encoded : dict,
    objects (_make_api_request str_scalar urlencode_plain sample_world "users.get"
               2%positive 1%Q (λ _, Loaded (PDict (<["response" := PList []]> ∅)))).1
      !! 2%positive = Some encoded
    ∧ encoded !! "user_ids" = Some (PStr "1,2,3")
    ∧ encoded !! "v" = Some (PStr "5.81").
Proof.
  destruct (collections_are_comma_joined str_scalar urlencode_plain sample_world "users.get"
              2%positive 1%Q (λ _, Loaded (PDict (<["response" := PList []]> ∅)))
              (<["v" := PStr "5.81"]> (<["user_ids" := PList [PInt 1; PInt 2; PInt 3]]> ∅))
              "user_ids" (PList [PInt 1; PInt 2; PInt 3]) eq_refl eq_refl)
    as (encoded & Hobjects & _ & Hjoined & _).
  destruct (collections_are_comma_joined str_scalar urlencode_plain sample_world "users.get"
              2%positive 1%Q (λ _, Loaded (PDict (<["response" := PList []]> ∅)))
              (<["v" := PStr "5.81"]> (<["user_ids" := PList [PInt 1; PInt 2; PInt 3]]> ∅))
              "v" (PStr "5.81") eq_refl eq_refl)
    as (encoded' & Hobjects' & _ & _ & Hkept).
  exists encoded. split; [exact Hobjects|]. split.
  - exact (Hjoined _ (or_introl eq_refl)).
  - rewrite Hobjects in Hobjects'. injection Hobjects' as <-. exact (Hkept eq_refl).
Defined.

Section Merging.

Context (py_str : pyval → string) (urlencode : dict → string) {W : Type}.

(** The dict object that [_fill_request_params] creates. *)
Lemma fill_request_params_spec (w : world W) (params : loc) :
  let filled := _fill_request_params w params in
  filled.2 = fresh (dom (objects w))
  ∧ objects filled.1
    = <[filled.2 :=
          dict_update (<["v" := version (self w)]> (<["access_token" := PStr (token (self w))]> ∅))
                      (deref (objects w) params)]> (objects w)
  ∧ self filled.1 = self w
  ∧ written filled.1 = written w
  ∧ slept filled.1 = slept w.
Proof. done. Qed.

(** The location of a new object is none of the store's. *)
Lemma fresh_not_live (h : heap) (l : loc) (d : dict) :
  h !! l = Some d → fresh (dom h) ≠ l.
Proof.
  intros Hl Heq. apply (is_fresh (dom h)). rewrite Heq.
  apply elem_of_dom. eauto.
Qed.

(** C5: the dict that [_fill_request_params] builds maps every key the
    caller supplied to the caller's value, also when the key is
    ["access_token"] or ["v"]; it holds the token and the version under
    those two keys exactly when the caller did not supply them; and it
    holds nothing else. *)
Theorem caller_params_take_precedence (w : world W) (params : loc) (supplied : dict) :
  objects w !! params = Some supplied →
  let filled := _fill_request_params w params in
  ∃ merged : dict,
    objects filled.1 !! filled.2 = Some merged
    ∧ (∀ key value, supplied !! key = Some value → merged !! key = Some value)
    ∧ (supplied !! "access_token" = None →
       merged !! "access_token" = Some (PStr (token (self w))))
    ∧ (supplied !! "v" = None → merged !! "v" = Some (version (self w)))
    ∧ (∀ key, supplied !! key = None → key ≠ "access_token" → key ≠ "v" →
         merged !! key = None).
Proof.
  intros Hsupplied filled.
  destruct (fill_request_params_spec w params) as (_ & Hobjects & _).
  fold filled in Hobjects. rewrite Hobjects, lookup_insert_eq.
  rewrite (deref_lookup _ _ _ Hsupplied).
  eexists. split; [reflexivity|]. unfold dict_update.
  split; [|split; [|split]].
  - intros key value Hkey. by apply lookup_union_Some_l.
  - intros Hnone. rewrite lookup_union_r by done.
    by rewrite lookup_insert_ne, lookup_insert_eq.
  - intros Hnone. rewrite lookup_union_r by done. by rewrite lookup_insert_eq.
  - intros key Hnone Htoken Hv. rewrite lookup_union_r by done.
    by rewrite !lookup_insert_ne, lookup_empty.
Qed.

(** C9: when [__call__] is given [True] as its first argument, the dict it
    hands to the request is the merge of the defaults and the caller's
    parameters, the caller winning, updated with [autocomplete_params]: a new
    dict that maps every key of [autocomplete_params] to the autocomplete
    value, whatever the caller or the defaults hold under that key, and
    every other key to what the merge of defaults and caller holds.  Without
    the flag it is that merge alone.  The request then flattens and encodes
    that dict. *)
Theorem autocomplete_overrides (w : world W) (request_params : loc)
    (supplied autocomplete : dict) (now : Q) (transport : string → reply) :
  objects w !! request_params = Some supplied →
  objects w !! autocomplete_params (self w) = Some autocomplete →
  let defaults : dict :=
    <["v" := version (self w)]> (<["access_token" := PStr (token (self w))]> ∅) in
  let combined := dict_update defaults supplied in
  let final := dict_update combined autocomplete in
  let call := __call__ w true request_params in
  let run := await py_str urlencode call.1 call.2 now transport in
  objects w !! co_request_params call.2 = None
  ∧ objects call.1 !! co_request_params call.2 = Some final
  ∧ (∀ key value, autocomplete !! key = Some value → final !! key = Some value)
  ∧ (∀ key, autocomplete !! key = None → final !! key = combined !! key)
  ∧ (let plain := __call__ w false request_params in
     objects plain.1 !! co_request_params plain.2 = Some combined)
  ∧ objects run.1 !! co_request_params call.2
    = Some (flatten_request_params py_str final)
  ∧ written run.1
    = ("GET /method/" ++ _convert_name (_method_name (self w)) ++ "?"
       ++ urlencode (flatten_request_params py_str final)
       ++ " HTTP/1.1" ++ LF ++ "Host: " ++ host (self w) ++ LF ++ LF) :: written w
  ∧ (∀ key value, autocomplete !! key = Some value →
       flatten_request_params py_str final !! key
       = Some match as_collection value with
              | Some elements => PStr (String.concat "," (map py_str elements))
              | None => value
              end).
Proof.
  intros Hsupplied Hauto defaults combined final call run.
  pose proof (fresh_not_live _ _ _ Hauto) as Hfresh.
  assert (Hloc : co_request_params call.2 = fresh (dom (objects w))) by done.
  assert (Hfinal : objects call.1 !! co_request_params call.2 = Some final).
  { subst call. unfold __call__, _fill_request_params, alloc. simpl.
    rewrite lookup_insert_eq, deref_insert_eq.
    rewrite deref_insert_ne by done.
    by rewrite (deref_lookup _ _ _ Hauto), (deref_lookup _ _ _ Hsupplied). }
  assert (Hwins : ∀ key value, autocomplete !! key = Some value → final !! key = Some value).
  { intros key value Hkey. subst final. unfold dict_update at 1.
    by apply lookup_union_Some_l. }
  split; [|split; [|split; [|split; [|split; [|split; [|split]]]]]].
  - rewrite Hloc. apply not_elem_of_dom, is_fresh.
  - exact Hfinal.
  - exact Hwins.
  - intros key Hnone. subst final. unfold dict_update at 1.
    by rewrite lookup_union_r.
  - intros plain. subst plain. unfold __call__, _fill_request_params, alloc. simpl.
    by rewrite lookup_insert_eq, (deref_lookup _ _ _ Hsupplied).
  - subst run. unfold await.
    destruct (make_api_request_spec py_str urlencode call.1 (co_method_name call.2)
                (co_request_params call.2) now transport) as (-> & _).
    by rewrite lookup_insert_eq, (deref_lookup _ _ _ Hfinal).
  - subst run. unfold await.
    destruct (make_api_request_spec py_str urlencode call.1 (co_method_name call.2)
                (co_request_params call.2) now transport) as (_ & _ & -> & _).
    unfold query_of. rewrite (deref_lookup _ _ _ Hfinal).
    subst call. unfold __call__, _fill_request_params, alloc. simpl.
    by destruct w.
  - intros key value Hkey.
    rewrite flatten_request_params_lookup, (Hwins key value Hkey).
    by destruct (as_collection value).
Qed.

End Merging.

Lemma caller_params_take_precedence_witness :
  ∃ merged : dict,
    objects (_fill_request_params sample_world 2%positive).1
      !! (_fill_request_params sample_world 2%positive).2 = Some merged
    ∧ merged !! "v" = Some (PStr "5.81")
    ∧ merged !! "access_token" = Some (PStr "mytoken")
    ∧ merged !! "lang" = None.
Proof.
  destruct (caller_params_take_precedence sample_world 2%positive
              (<["v" := PStr "5.81"]> (<["user_ids" := PList [PInt 1; PInt 2; PInt 3]]> ∅))
              eq_refl)
    as (merged & Hmerged & Hcaller & Htoken & _ & Hnone).
  exists merged. split; [exact Hmerged|]. split; [|split].
  - apply Hcaller. reflexivity.
  - apply Htoken. reflexivity.
  - apply Hnone; [reflexivity | discriminate | discriminate].
Defined.

Lemma autocomplete_overrides_witness :
  let final : dict :=
    dict_update
      (dict_update (<["v" := PStr "5.133"]> (<["access_token" := PStr "mytoken"]> ∅))
                   (<["v" := PStr "5.81"]> (<["user_ids" := PList [PInt 1; PInt 2; PInt 3]]> ∅)))
      (<["group_id" := PInt 123]> (<["v" := PStr "5.92"]> ∅)) in
  objects (__call__ sample_world true 2%positive).1
    !! co_request_params (__call__ sample_world true 2%positive).2 = Some final
  ∧ final !! "v" = Some (PStr "5.92")
  ∧ final !! "group_id" = Some (PInt 123)
  ∧ final !! "user_ids" = Some (PList [PInt 1; PInt 2; PInt 3])
  ∧ final !! "access_token" = Some (PStr "mytoken").
Proof.
  intros final.
  destruct (autocomplete_overrides str_scalar urlencode_plain sample_world 2%positive
              (<["v" := PStr "5.81"]> (<["user_ids" := PList [PInt 1; PInt 2; PInt 3]]> ∅))
              (<["group_id" := PInt 123]> (<["v" := PStr "5.92"]> ∅))
              1%Q (λ _, WriteRaises (External "closed")) eq_refl eq_refl)
    as (_ & Hfinal & Hwins & Hrest & _).
  split; [exact Hfinal|]. split; [|split; [|split]].
  - apply Hwins. reflexivity.
  - apply Hwins. reflexivity.
  - rewrite Hrest; reflexivity.
  - rewrite Hrest; reflexivity.
Defined.

(** * Dispatcher: properties *)

Section Dispatcher.

Context (py_str : pyval → string) (urlencode : dict → string) {W : Type}.

(** [__call__] assigns the empty string to the accumulator, and the request
    does not assign it. *)
Lemma call_self (w : world W) (use_autocomplete_params_ : bool) (request_params : loc) :
  self (__call__ w use_autocomplete_params_ request_params).1
  = set_method_name (self w) "".
Proof.
  unfold __call__, _fill_request_params, alloc. simpl.
  by destruct use_autocomplete_params_.
Qed.

Lemma await_method_name (w : world W) (co : coroutine) (now : Q)
    (transport : string → reply) :
  _method_name (self (await py_str urlencode w co now transport).1)
  = _method_name (self w).
Proof.
  unfold await.
  destruct (make_api_request_spec py_str urlencode w (co_method_name co)
              (co_request_params co) now transport) as (_ & Hself & _).
  by rewrite Hself, waiting_method_name.
Qed.

Lemma await_returned (w : world W) (co : coroutine) (now : Q)
    (transport : string → reply) :
  (await py_str urlencode w co now transport).2
  = returned_for w (transport (query_of py_str urlencode w (co_method_name co)
                                 (co_request_params co))).
Proof.
  unfold await.
  by destruct (make_api_request_spec py_str urlencode w (co_method_name co)
                 (co_request_params co) now transport) as (_ & _ & _ & _ & ->).
Qed.

(** The request does fail on an error envelope and on a transport error;
    the accumulator is empty all the same. *)
Lemma failed_call_leaves_no_segments (w : world W) (request_params : loc) (now : Q)
    (e : exn) (env : dict) :
  is_Some (env !! "error") →
  let call := __call__ w false request_params in
  let refused := await py_str urlencode call.1 call.2 now (λ _, Loaded (PDict env)) in
  let broken := await py_str urlencode call.1 call.2 now (λ _, WriteRaises e) in
  refused.2 = Raise (VkApiError (PDict env))
  ∧ _method_name (self refused.1) = ""
  ∧ broken.2 = Raise e
  ∧ _method_name (self broken.1) = "".
Proof.
  intros Herr call refused broken.
  subst refused broken. rewrite !await_method_name, !await_returned.
  subst call. rewrite call_self. simpl.
  rewrite check_errors_dict, bool_decide_eq_true_2; done.
Qed.

(** C8: [__call__] leaves the method-name accumulator empty, whatever it
    held; it is still empty after the request has run, whatever the request
    returned or raised; and the next attribute access starts a new name. *)
Theorem call_resets_method_name (w : world W) (use_autocomplete_params_ : bool)
    (request_params : loc) (now : Q) (transport : string → reply) :
  let call := __call__ w use_autocomplete_params_ request_params in
  let run := await py_str urlencode call.1 call.2 now transport in
  _method_name (self call.1) = ""
  ∧ _method_name (self run.1) = ""
  ∧ ∀ attribute,
      _method_name (__getattr__ (self run.1) attribute) = _convert_name attribute.
Proof.
  intros call run.
  assert (Hcall : _method_name (self call.1) = "").
  { subst call. by rewrite call_self. }
  assert (Hrun : _method_name (self run.1) = "").
  { subst run. by rewrite await_method_name. }
  split; [done|]. split; [done|].
  intros attribute. unfold __getattr__. by rewrite Hrun.
Qed.

(** C10: every dict object that exists when [method] or [__call__] is
    invoked, the caller's mapping among them, holds the same entries after
    the invocation and after the request has run: what is filled, updated
    and flattened is the new dict. *)
Theorem caller_mapping_not_mutated (w : world W) (method_name : string)
    (use_autocomplete_params_ : bool) (request_params : loc)
    (now : Q) (transport : string → reply) (l : loc) (entries : dict) :
  objects w !! l = Some entries →
  (let invoked := method w method_name request_params in
   co_request_params invoked.2 ≠ l
   ∧ objects invoked.1 !! l = Some entries
   ∧ objects (await py_str urlencode invoked.1 invoked.2 now transport).1 !! l
     = Some entries)
  ∧ (let invoked := __call__ w use_autocomplete_params_ request_params in
     co_request_params invoked.2 ≠ l
     ∧ objects invoked.1 !! l = Some entries
     ∧ objects (await py_str urlencode invoked.1 invoked.2 now transport).1 !! l
       = Some entries).
Proof.
  intros Hlive. pose proof (fresh_not_live _ _ _ Hlive) as Hfresh.
  split; intros invoked.
  - assert (Hloc : co_request_params invoked.2 = fresh (dom (objects w))) by done.
    assert (Hkept : objects invoked.1 !! l = Some entries).
    { subst invoked. unfold method, _fill_request_params, alloc. simpl.
      by rewrite lookup_insert_ne. }
    split; [by rewrite Hloc|]. split; [done|].
    unfold await.
    destruct (make_api_request_spec py_str urlencode invoked.1 (co_method_name invoked.2)
                (co_request_params invoked.2) now transport) as (-> & _).
    rewrite lookup_insert_ne; [done | by rewrite Hloc].
  - assert (Hloc : co_request_params invoked.2 = fresh (dom (objects w))) by done.
    assert (Hkept : objects invoked.1 !! l = Some entries).
    { subst invoked. unfold __call__, _fill_request_params, alloc. simpl.
      destruct use_autocomplete_params_; simpl; by rewrite !lookup_insert_ne. }
    split; [by rewrite Hloc|]. split; [done|].
    unfold await.
    destruct (make_api_request_spec py_str urlencode invoked.1 (co_method_name invoked.2)
                (co_request_params invoked.2) now transport) as (-> & _).
    rewrite lookup_insert_ne; [done | by rewrite Hloc].
Qed.

End Dispatcher.

Lemma caller_mapping_not_mutated_witness :
  let kept (invoked : world pyval * coroutine) :=
    objects (await str_scalar urlencode_plain invoked.1 invoked.2 1%Q
               (λ _, Loaded bad_token_envelope)).1 !! 2%positive
    = Some (<["v" := PStr "5.81"]> (<["user_ids" := PList [PInt 1; PInt 2; PInt 3]]> ∅)) in
  kept (method sample_world "users.get" 2%positive)
  ∧ kept (__call__ sample_world true 2%positive).
Proof.
  intros kept.
  destruct (caller_mapping_not_mutated str_scalar urlencode_plain sample_world "users.get"
              true 2%positive 1%Q (λ _, Loaded bad_token_envelope) 2%positive
              (<["v" := PStr "5.81"]> (<["user_ids" := PList [PInt 1; PInt 2; PInt 3]]> ∅))
              eq_refl)
    as [(_ & _ & Hmethod) (_ & _ & Hcall)].
  split; [exact Hmethod | exact Hcall].
Defined.

(** * Name resolver: further properties *)

Lemma has_snake_pair_cons c rest :
  has_snake_pair (String c rest)
  = (Ascii.eqb c "_" && starts_lower rest) || has_snake_pair rest.
Proof. reflexivity. Qed.

Lemma converted_has_no_pair_upto n :
  ∀ s, (String.length s ≤ n)%nat → has_snake_pair (_convert_name s) = false.
Proof.
  induction n as [|n IH]; intros s Hlen.
  { destruct s; [reflexivity | simpl in Hlen; lia]. }
  destruct s as [|c rest]; [reflexivity|].
  simpl in Hlen.
  destruct (Ascii.eqb c "_") eqn:Hc.
  - apply Ascii.eqb_eq in Hc as ->.
    destruct rest as [|l rest']; [reflexivity|].
    destruct (is_lower l) eqn:Hl.
    + rewrite convert_underscore_match by done.
      rewrite has_snake_pair_cons, upper_not_underscore by done.
      apply IH. simpl in Hlen. lia.
    + rewrite (convert_underscore_skip (String l rest')) by done.
      rewrite has_snake_pair_cons.
      rewrite (convert_starts_lower (String l rest')) by done.
      rewrite andb_false_r. apply IH. lia.
  - rewrite convert_cons_other by done.
    rewrite has_snake_pair_cons, Hc. apply IH. lia.
Qed.

Lemma convert_without_pair s : has_snake_pair s = false → _convert_name s = s.
Proof.
  induction s as [|c rest IH]; [reflexivity|].
  rewrite has_snake_pair_cons. intros [Hhead Hrest]%orb_false_iff.
  destruct (Ascii.eqb c "_") eqn:Hc.
  - apply Ascii.eqb_eq in Hc as ->. simpl in Hhead.
    rewrite convert_underscore_skip; [by rewrite IH|].
    by destruct rest.
  - rewrite convert_cons_other by done. by rewrite IH.
Qed.

(** X1: a converted name holds no underscore followed by a letter of [a-z],
    and the names that the conversion leaves unchanged are exactly the names
    that hold no such pair. *)
Theorem convert_name_normal_form (s : string) :
  has_snake_pair (_convert_name s) = false
  ∧ (_convert_name s = s ↔ has_snake_pair s = false).
Proof.
  assert (Hnormal : ∀ t, has_snake_pair (_convert_name t) = false).
  { intros t. by apply (converted_has_no_pair_upto (String.length t)). }
  split; [apply Hnormal|]. split.
  - intros Hfix. rewrite <- Hfix. apply Hnormal.
  - apply convert_without_pair.
Qed.

Lemma append_assoc (a b c : string) : (a ++ b) ++ c = a ++ b ++ c.
Proof.
  induction a as [|x a IH]; [by rewrite !append_empty|].
  by rewrite !append_cons, IH.
Qed.

Lemma convert_concat_dot (segments : list string) :
  _convert_name (String.concat "." segments)
  = String.concat "." (map _convert_name segments).
Proof.
  induction segments as [|a [|b rest] IH]; [reflexivity..|].
  change (String.concat "." (a :: b :: rest))
    with (a ++ "." ++ String.concat "." (b :: rest)).
  rewrite convert_app_dot, IH. reflexivity.
Qed.

(** X2: converting a dotted name is converting each of its segments: the
    conversion never joins or splits segments. *)
Theorem convert_name_segmentwise (segments : list string) :
  _convert_name (String.concat "." segments)
  = String.concat "." (map _convert_name segments).
Proof. apply convert_concat_dot. Qed.

Lemma convert_nonempty s : s ≠ "" → _convert_name s ≠ "".
Proof.
  destruct s as [|c [|l rest]]; [done..|]. intros _.
  cbn [_convert_name]. by destruct (Ascii.eqb c "_" && is_lower l).
Qed.

(** [__getattr__] assigns the accumulator and nothing else. *)
Lemma getattr_frame {W} (self : API W) attribute :
  __getattr__ self attribute
  = set_method_name self (_method_name (__getattr__ self attribute)).
Proof. unfold __getattr__. by destruct (negb _). Qed.

Lemma getattr_chain_frame {W} (attributes : list string) :
  ∀ (self : API W) (name : string),
    set_method_name (foldl __getattr__ self attributes) name = set_method_name self name.
Proof.
  induction attributes as [|a rest IH]; intros self name; [done|].
  cbn [foldl]. rewrite IH. by rewrite (getattr_frame self a).
Qed.

(** Once the accumulator is not empty, every access appends a dot and the
    converted attribute. *)
Lemma getattr_chain_append {W} (attributes : list string) :
  ∀ self : API W,
    _method_name self ≠ "" →
    _method_name (foldl __getattr__ self attributes)
    = String.concat "." (_method_name self :: map _convert_name attributes).
Proof.
  induction attributes as [|a rest IH]; intros self Hacc; [done|].
  assert (Hstep : _method_name (__getattr__ self a)
                  = _method_name self ++ "." ++ _convert_name a).
  { unfold __getattr__.
    destruct (String.eqb_spec (_method_name self) ""); [done|]. reflexivity. }
  cbn [foldl]. rewrite IH.
  - rewrite Hstep. cbn [map].
    change (String.concat "." (_method_name self :: _convert_name a :: map _convert_name rest))
      with (_method_name self ++ "." ++ String.concat "." (_convert_name a :: map _convert_name rest)).
    destruct (map _convert_name rest) as [|b more].
    + reflexivity.
    + change (String.concat "." ((_method_name self ++ "." ++ _convert_name a) :: b :: more))
        with ((_method_name self ++ "." ++ _convert_name a) ++ "." ++ String.concat "." (b :: more)).
      change (String.concat "." (_convert_name a :: b :: more))
        with (_convert_name a ++ "." ++ String.concat "." (b :: more)).
      by rewrite !append_assoc.
  - rewrite Hstep. destruct (_method_name self); [done|]. by rewrite append_cons.
Qed.

Lemma getattr_chain_name {W} (self : API W) (first : string) (others : list string) :
  _method_name self = "" → first ≠ "" →
  _method_name (foldl __getattr__ self (first :: others))
  = String.concat "." (map _convert_name (first :: others)).
Proof.
  intros Hempty Hfirst. cbn [foldl].
  assert (Hstep : _method_name (__getattr__ self first) = _convert_name first).
  { unfold __getattr__. by rewrite Hempty. }
  rewrite getattr_chain_append; rewrite Hstep; [done|].
  by apply convert_nonempty.
Qed.

(** X3: starting from the empty accumulator, a chain of attribute accesses
    whose first attribute is not empty accumulates the converted attributes
    joined by dots, in the order of the accesses. *)
Theorem getattr_builds_dotted_name {W} (self : API W) (first : string) (others : list string) :
  _method_name self = "" → first ≠ "" →
  _method_name (foldl __getattr__ self (first :: others))
  = String.concat "." (map _convert_name (first :: others)).
Proof. apply getattr_chain_name. Qed.

Lemma getattr_builds_dotted_name_witness :
  _method_name (foldl __getattr__ user_client ["messages"; "get_conversations_by_id"])
  = "messages.getConversationsById".
Proof.
  apply (getattr_builds_dotted_name user_client "messages" ["get_conversations_by_id"]);
    [reflexivity | discriminate].
Defined.

Lemma set_method_name_same {W} (self : API W) :
  set_method_name self (_method_name self) = self.
Proof. by destruct self. Qed.

(** X4: the fluent form and [method] are the same call: accumulating the
    segments by attribute access and calling without the autocomplete flag
    gives the coroutine and the state that [method] gives for the dotted
    name. *)
Theorem fluent_call_is_method {W} (w : world W) (first : string) (others : list string)
    (request_params : loc) :
  _method_name (self w) = "" → first ≠ "" →
  __call__ (set_self w (foldl __getattr__ (self w) (first :: others))) false request_params
  = method w (String.concat "." (first :: others)) request_params.
Proof.
  intros Hempty Hfirst.
  pose proof (getattr_chain_name (self w) first others Hempty Hfirst) as Hname.
  assert (Hreset : set_method_name (foldl __getattr__ (self w) (first :: others)) ""
                   = self w).
  { rewrite getattr_chain_frame, <- Hempty. apply set_method_name_same. }
  assert (Htoken : token (foldl __getattr__ (self w) (first :: others)) = token (self w)).
  { by rewrite <- Hreset at 2. }
  assert (Hversion : version (foldl __getattr__ (self w) (first :: others))
                     = version (self w)).
  { by rewrite <- Hreset at 2. }
  unfold __call__, method, _fill_request_params, alloc.
  cbn [set_self set_objects self objects written slept].
  rewrite Hreset, Htoken, Hversion, Hname.
  rewrite <- convert_concat_dot, convert_idempotent.
  by destruct w.
Qed.

Lemma fluent_call_is_method_witness :
  __call__ (set_self sample_world (foldl __getattr__ user_client ["users"; "get_by_id"]))
           false 2%positive
  = method sample_world "users.get_by_id" 2%positive.
Proof.
  apply (fluent_call_is_method sample_world "users" ["get_by_id"] 2%positive);
    [reflexivity | discriminate].
Defined.

(** * Rate limiter: further properties *)

Lemma waiting_cases {W} (now : Q) (self : API W) :
  let elapsed := (now - _last_request_time self)%Q in
  ((elapsed < _delay self)%Q
   ∧ _waiting now self
     = (Some (_delay self - elapsed)%Q,
        set_last_request_time self (_last_request_time self + _delay self)%Q))
  ∨ ((_delay self <= elapsed)%Q
     ∧ _waiting now self = (None, set_last_request_time self now)).
Proof.
  intros elapsed. unfold _waiting. fold elapsed.
  destruct (Qlt_le_dec elapsed (_delay self)); [left | right]; done.
Qed.

(** X7: the first request of a client that [__post_init__] has built does
    not sleep, as soon as the clock reads at least [_delay]: the timestamp
    starts at 0. *)
Theorem first_request_is_immediate {W} (urlencode : dict → string)
    (urlopen : string → fetched) (token : string) (version : pyval)
    (autocomplete_params : loc) (host : string) (response_factory : pyval → W)
    (api : API W) (now : Q) :
  __post_init__ urlencode urlopen token version autocomplete_params host response_factory
  = Return api →
  (_delay api <= now)%Q →
  _waiting now api = (None, set_last_request_time api now).
Proof.
  intros Hinit Hnow.
  assert (Hlast : _last_request_time api = 0%Q).
  { unfold __post_init__ in Hinit.
    destruct (define_token_owner _ _ _ _ _); [|done]. by injection Hinit as <-. }
  destruct (waiting_cases now api) as [[Hlt _] | [_ ->]]; [|done].
  rewrite Hlast in Hlt. lra.
Qed.

Lemma first_request_is_immediate_witness :
  _waiting (1 # 2)%Q user_client = (None, set_last_request_time user_client (1 # 2)%Q).
Proof.
  apply (first_request_is_immediate urlencode_plain
           (λ _, Fetched (PDict (<["response" := PList [PDict (<["id" := PInt 1]> ∅)]]> ∅)))
           "mytoken" (PStr "5.133") 1%positive "api.vk.com" (λ v : pyval, v)).
  - reflexivity.
  - vm_compute. discriminate.
Defined.

(** * The request: further properties *)

Section RequestEffects.

Context (py_str : pyval → string) (urlencode : dict → string) {W : Type}.

Lemma world_eq (a b : world W) :
  objects a = objects b → self a = self b → written a = written b → slept a = slept b →
  a = b.
Proof. destruct a, b. simpl. by intros -> -> -> ->. Qed.

(** X8: the state that a request leaves, whatever comes back and whether
    it returns or raises: the dict of its parameters has been flattened in
    place, the client is the one that [_waiting] leaves, with the timestamp
    recorded, exactly one query has been handed to the transport, and the
    only sleep is the one that [_waiting] asked for. *)
Theorem request_effects_ignore_reply (w : world W) (method_name : string)
    (request_params : loc) (now : Q) (transport transport' : string → reply) :
  let run := _make_api_request py_str urlencode w method_name request_params now transport in
  let run' := _make_api_request py_str urlencode w method_name request_params now transport' in
  let waited := _waiting now (self w) in
  run.1
  = {| objects :=
         <[request_params := flatten_request_params py_str (deref (objects w) request_params)]>
           (objects w);
       self := waited.2;
       written := query_of py_str urlencode w method_name request_params :: written w;
       slept := match waited.1 with
                | Some wait_time => wait_time :: slept w
                | None => slept w
                end |}
  ∧ run.1 = run'.1.
Proof.
  intros run run' waited.
  destruct (make_api_request_spec py_str urlencode w method_name request_params now transport)
    as (Hobjects & Hself & Hwritten & Hslept & _).
  destruct (make_api_request_spec py_str urlencode w method_name request_params now transport')
    as (Hobjects' & Hself' & Hwritten' & Hslept' & _).
  fold run in Hobjects, Hself, Hwritten, Hslept.
  fold run' in Hobjects', Hself', Hwritten', Hslept'.
  subst waited. split; apply world_eq; simpl; try done; congruence.
Qed.


(** One step of the loop, seen from the values. *)
Lemma flatten_lookup_Some (request_params : dict) (k : string) (v : pyval) :
  flatten_request_params py_str request_params !! k = Some v →
  ∃ held, request_params !! k = Some held
          ∧ v = match as_collection held with
                | Some elements => PStr (String.concat "," (map py_str elements))
                | None => held
                end.
Proof.
  rewrite flatten_request_params_lookup.
  destruct (request_params !! k) as [held|]; [|done].
  intros Hv. exists held. split; [done|].
  destruct (as_collection held); by injection Hv.
Qed.

(** X10: after the flattening loop the dict has the keys it had, none of its
    values is a list, a set or a tuple, and running the loop again changes
    nothing. *)
Theorem flattening_leaves_scalars (request_params : dict) :
  let flattened := flatten_request_params py_str request_params in
  dom flattened = dom request_params
  ∧ (∀ k v, flattened !! k = Some v → as_collection v = None)
  ∧ flatten_request_params py_str flattened = flattened.
Proof.
  intros flattened. subst flattened. split; [|split].
  - apply set_eq. intros k. rewrite !elem_of_dom, flatten_request_params_lookup.
    destruct (request_params !! k) as [held|]; [|done].
    destruct (as_collection held); split; eauto.
  - intros k v (held & _ & ->)%flatten_lookup_Some.
    by destruct (as_collection held) eqn:Hheld.
  - apply map_eq. intros k.
    rewrite (flatten_request_params_lookup py_str (flatten_request_params py_str request_params)).
    destruct (flatten_request_params py_str request_params !! k) as [v|] eqn:Hk; [|done].
    apply flatten_lookup_Some in Hk as (held & _ & ->).
    by destruct (as_collection held) eqn:Hheld; [|rewrite Hheld].
Qed.

(** X11: the edges of the flattening.  A set is joined like a list, in its
    iteration order; an empty list, tuple or set becomes the empty string; a
    collection of one element becomes the [str] of that element, without a
    comma; a key that is absent stays absent. *)
Theorem flattening_edges (request_params : dict) (k : string) :
  let flattened := flatten_request_params py_str request_params in
  (∀ elements, request_params !! k = Some (PSet elements) →
     flattened !! k = Some (PStr (String.concat "," (map py_str elements))))
  ∧ (∀ held, request_params !! k = Some held → as_collection held = Some [] →
       flattened !! k = Some (PStr ""))
  ∧ (∀ held x, request_params !! k = Some held → as_collection held = Some [x] →
       flattened !! k = Some (PStr (py_str x)))
  ∧ (request_params !! k = None → flattened !! k = None).
Proof.
  intros flattened. subst flattened.
  rewrite flatten_request_params_lookup.
  split; [|split; [|split]].
  - by intros elements ->.
  - by intros held -> ->.
  - by intros held x -> ->.
  - by intros ->.
Qed.

End RequestEffects.


Lemma flattening_leaves_scalars_witness :
  as_collection (PStr "1,2,3") = None.
Proof.
  destruct (flattening_leaves_scalars str_scalar
              (<["user_ids" := PList [PInt 1; PInt 2; PInt 3]]> ∅)) as (_ & Hscalar & _).
  apply (Hscalar "user_ids"). reflexivity.
Defined.

Lemma flattening_edges_witness :
  let flattened :=
    flatten_request_params str_scalar
      (<["fields" := PSet [PStr "sex"; PStr "city"]]>
         (<["ids" := PTuple []]> (<["id" := PList [PInt 7]]> ∅))) in
  flattened !! "fields" = Some (PStr "sex,city")
  ∧ flattened !! "ids" = Some (PStr "")
  ∧ flattened !! "id" = Some (PStr "7")
  ∧ flattened !! "lang" = None.
Proof.
  intros flattened. split; [|split; [|split]].
  - destruct (flattening_edges str_scalar
                (<["fields" := PSet [PStr "sex"; PStr "city"]]>
                   (<["ids" := PTuple []]> (<["id" := PList [PInt 7]]> ∅))) "fields")
      as (Hset & _).
    exact (Hset [PStr "sex"; PStr "city"] eq_refl).
  - destruct (flattening_edges str_scalar
                (<["fields" := PSet [PStr "sex"; PStr "city"]]>
                   (<["ids" := PTuple []]> (<["id" := PList [PInt 7]]> ∅))) "ids")
      as (_ & Hempty & _).
    exact (Hempty (PTuple []) eq_refl eq_refl).
  - destruct (flattening_edges str_scalar
                (<["fields" := PSet [PStr "sex"; PStr "city"]]>
                   (<["ids" := PTuple []]> (<["id" := PList [PInt 7]]> ∅))) "id")
      as (_ & _ & Hone & _).
    exact (Hone (PList [PInt 7]) (PInt 7) eq_refl eq_refl).
  - destruct (flattening_edges str_scalar
                (<["fields" := PSet [PStr "sex"; PStr "city"]]>
                   (<["ids" := PTuple []]> (<["id" := PList [PInt 7]]> ∅))) "lang")
      as (_ & _ & _ & Hnone).
    exact (Hnone eq_refl).
Defined.

(** * Dispatcher: further properties *)

Section Keys.

Context {W : Type}.

(** X12: the dict handed to the request holds the caller's keys, the keys
    ["access_token"] and ["v"], the keys of [autocomplete_params] when
    [__call__] is given the flag, and no other key. *)
Theorem request_keys (w : world W) (method_name : string)
    (use_autocomplete_params_ : bool) (request_params : loc)
    (supplied autocomplete : dict) :
  objects w !! request_params = Some supplied →
  objects w !! autocomplete_params (self w) = Some autocomplete →
  (let invoked := method w method_name request_params in
   ∃ handed : dict,
     objects invoked.1 !! co_request_params invoked.2 = Some handed
     ∧ dom handed = dom supplied ∪ {["access_token"; "v"]})
  ∧ (let invoked := __call__ w use_autocomplete_params_ request_params in
     ∃ handed : dict,
       objects invoked.1 !! co_request_params invoked.2 = Some handed
       ∧ dom handed
         = (if use_autocomplete_params_ then dom autocomplete else ∅)
           ∪ dom supplied ∪ {["access_token"; "v"]}).
Proof.
  intros Hsupplied Hauto.
  pose proof (fresh_not_live _ _ _ Hauto) as Hfresh.
  split; intros invoked; subst invoked.
  - unfold method, _fill_request_params, alloc. simpl.
    rewrite lookup_insert_eq, (deref_lookup _ _ _ Hsupplied).
    eexists. split; [reflexivity|].
    unfold dict_update. rewrite dom_union_L, !dom_insert_L, dom_empty_L. set_solver.
  - unfold __call__, _fill_request_params, alloc. simpl.
    rewrite (deref_lookup _ _ _ Hsupplied).
    destruct use_autocomplete_params_; simpl.
    + rewrite lookup_insert_eq, deref_insert_eq.
      rewrite deref_insert_ne by done. rewrite (deref_lookup _ _ _ Hauto).
      eexists. split; [reflexivity|].
      unfold dict_update. rewrite !dom_union_L, !dom_insert_L, dom_empty_L. set_solver.
    + rewrite lookup_insert_eq.
      eexists. split; [reflexivity|].
      unfold dict_update. rewrite dom_union_L, !dom_insert_L, dom_empty_L. set_solver.
Qed.

End Keys.

Section Invariant.

Context (py_str : pyval → string) (urlencode : dict → string) {W : Type}.

(** X13: the interval agrees with the class when [__post_init__] returns,
    and no operation of the client changes either: the agreement holds after
    every attribute access, call and request. *)
Theorem interval_follows_class :
  (∀ urlopen token version autocomplete_params host (response_factory : pyval → W) api,
     __post_init__ urlencode urlopen token version autocomplete_params host response_factory
     = Return api →
     interval_matches_class api)
  ∧ (∀ (w : world W) attribute use_autocomplete_params_ method_name request_params
       co now transport,
       interval_matches_class (self w) →
       interval_matches_class (__getattr__ (self w) attribute)
       ∧ interval_matches_class (self (__call__ w use_autocomplete_params_ request_params).1)
       ∧ interval_matches_class (self (method w method_name request_params).1)
       ∧ interval_matches_class (self (await py_str urlencode w co now transport).1)).
Proof.
  split.
  - intros urlopen token version autocomplete_params host response_factory api Hinit.
    unfold __post_init__ in Hinit.
    destruct (define_token_owner _ _ _ _ _); [|done]. by injection Hinit as <-.
  - intros w attribute use_auto method_name request_params co now transport Hself.
    split; [|split; [|split]].
    + by rewrite getattr_frame.
    + by rewrite call_self.
    + done.
    + unfold await.
      destruct (make_api_request_spec py_str urlencode w (co_method_name co)
                  (co_request_params co) now transport) as (_ & -> & _).
      by rewrite waiting_frame.
Qed.

End Invariant.

Lemma request_keys_witness :
  ∃ handed : dict,
    objects (__call__ sample_world true 2%positive).1
      !! co_request_params (__call__ sample_world true 2%positive).2 = Some handed
    ∧ dom handed = {["group_id"; "user_ids"; "access_token"; "v"]}.
Proof.
  destruct (request_keys sample_world "users.get" true 2%positive
              (<["v" := PStr "5.81"]> (<["user_ids" := PList [PInt 1; PInt 2; PInt 3]]> ∅))
              (<["group_id" := PInt 123]> (<["v" := PStr "5.92"]> ∅))
              eq_refl eq_refl)
    as [_ (handed & Hhanded & Hdom)].
  exists handed. split; [exact Hhanded|].
  rewrite Hdom, !dom_insert_L, dom_empty_L. set_solver.
Defined.

Lemma interval_follows_class_witness :
  interval_matches_class user_client
  ∧ interval_matches_class (self (__call__ sample_world true 2%positive).1).
Proof.
  destruct (interval_follows_class str_scalar urlencode_plain (W := pyval)) as [Hinit Hkept].
  assert (Hclient : interval_matches_class user_client).
  { apply (Hinit (λ _, Fetched (PDict (<["response" := PList [PDict (<["id" := PInt 1]> ∅)]]> ∅)))
             "mytoken" (PStr "5.133") 1%positive "api.vk.com" (λ v : pyval, v)).
    reflexivity. }
  split; [exact Hclient|].
  apply (Hkept sample_world "users" true "users.get" 2%positive
           {| co_method_name := "users.get"; co_request_params := 2%positive |}
           1%Q (λ _, Loaded PNone)).
  exact Hclient.
Defined.

(** * Credential classifier: further properties *)

Section Probe.

Context (urlencode : dict → string) {W : Type}.
Context (credential : string) (api_version : pyval) (autocomplete : loc)
        (wrap : pyval → W).

(** The one URL that construction fetches. *)
Lemma post_init_unfold (urlopen : string → fetched) (client_host : string) :
  __post_init__ urlencode urlopen credential api_version autocomplete client_host wrap
  = match urlopen ("https://api.vk.com/method/users.get?"
                   ++ urlencode (<["v" := api_version]> (<["access_token" := PStr credential]> ∅))) with
    | FetchRaises e => Raise e
    | Fetched resp =>
        match getitem resp "response" with
        | Raise e => Raise e
        | Return response =>
            match _check_errors response with
            | Raise e => Raise e
            | Return _ =>
                Return {| token := credential; version := api_version;
                          autocomplete_params := autocomplete; host := client_host;
                          response_factory := wrap;
                          _method_name := "";
                          _last_request_time := 0%Q;
                          token_owner := if truthy response then USER else GROUP;
                          _delay := if truthy response then (1 # 3)%Q else (1 # 20)%Q |}
            end
        end
    end.
Proof.
  unfold __post_init__, define_token_owner.
  destruct (urlopen _) as [e|resp]; [done|].
  destruct (getitem resp "response") as [response|]; [|done].
  destruct (_check_errors response); [|done].
  by destruct (truthy response).
Qed.

(** X14: construction reads the network at one URL only, the [users.get]
    method of [api.vk.com] with the token and the version as query; the
    [host] of the client plays no part in the probe: two networks that agree
    on that URL give the same class and interval, or the same exception,
    whatever the two hosts. *)
Theorem probe_reads_one_url (urlopen urlopen' : string → fetched) (client_host client_host' : string) :
  urlopen ("https://api.vk.com/method/users.get?"
           ++ urlencode (<["v" := api_version]> (<["access_token" := PStr credential]> ∅)))
  = urlopen' ("https://api.vk.com/method/users.get?"
              ++ urlencode (<["v" := api_version]> (<["access_token" := PStr credential]> ∅))) →
  match
    __post_init__ urlencode urlopen credential api_version autocomplete client_host wrap,
    __post_init__ urlencode urlopen' credential api_version autocomplete client_host' wrap
  with
  | Return api, Return api' =>
      token_owner api = token_owner api' ∧ _delay api = _delay api'
      ∧ host api = client_host ∧ host api' = client_host'
  | Raise e, Raise e' => e = e'
  | _, _ => False
  end.
Proof.
  intros Hagree. rewrite !post_init_unfold, <- Hagree.
  destruct (urlopen _) as [e|resp]; [done|].
  destruct (getitem resp "response") as [response|]; [|done].
  by destruct (_check_errors response).
Qed.

(** X15: on the replies that [users.get] gives, a mapping whose ["response"]
    is a list of mappings, construction succeeds: the empty list gives a
    group client with interval 1/20, a non-empty list a user client with
    interval 1/3, and the client starts with an empty method name and the
    timestamp 0. *)
Theorem probe_classifies_user_lists (urlopen : string → fetched) (client_host : string)
    (env : dict) (users : list pyval) :
  (∀ url, urlopen url = Fetched (PDict env)) →
  env !! "response" = Some (PList users) →
  forallb is_mapping users = true →
  ∃ api,
    __post_init__ urlencode urlopen credential api_version autocomplete client_host wrap
    = Return api
    ∧ token_owner api = match users with [] => GROUP | _ => USER end
    ∧ _delay api = match users with [] => (1 # 20)%Q | _ => (1 # 3)%Q end
    ∧ _method_name api = "" ∧ _last_request_time api = 0%Q
    ∧ token api = credential ∧ version api = api_version.
Proof.
  intros Hnet Hresponse Husers.
  rewrite post_init_unfold, Hnet. simpl. rewrite Hresponse.
  unfold _check_errors. simpl. rewrite no_error_among_mappings by done.
  eexists. split; [reflexivity|]. simpl. by destruct users.
Qed.

(** X16: when construction returns a client and when it raises.  It returns
    exactly when the reply is a mapping with a ["response"] in which
    ["error"] is not found, and the client it returns has the class and the
    interval selected by the truthiness of that value; what [urlopen] or the
    parser raises is raised as it is; a mapping without ["response"] raises
    [KeyError]. *)
Theorem post_init_outcomes (urlopen : string → fetched) (client_host : string) :
  let reply :=
    urlopen ("https://api.vk.com/method/users.get?"
             ++ urlencode (<["v" := api_version]> (<["access_token" := PStr credential]> ∅))) in
  let built :=
    __post_init__ urlencode urlopen credential api_version autocomplete client_host wrap in
  (∀ api, built = Return api ↔
     ∃ (env : dict) response,
       reply = Fetched (PDict env) ∧ env !! "response" = Some response
       ∧ py_in "error" response = Return false
       ∧ api = {| token := credential; version := api_version;
                  autocomplete_params := autocomplete; host := client_host;
                  response_factory := wrap;
                  _method_name := "";
                  _last_request_time := 0%Q;
                  token_owner := if truthy response then USER else GROUP;
                  _delay := if truthy response then (1 # 3)%Q else (1 # 20)%Q |})
  ∧ (∀ e, reply = FetchRaises e → built = Raise e)
  ∧ (∀ env : dict, reply = Fetched (PDict env) → env !! "response" = None →
       built = Raise (KeyError "response")).
Proof.
  intros reply built. subst built. rewrite post_init_unfold. fold reply.
  split; [|split].
  - intros api. split.
    + destruct reply as [e|resp]; [done|].
      destruct resp; try done. simpl.
      destruct (d !! "response") as [response|] eqn:Hresponse; [|done].
      unfold _check_errors.
      destruct (py_in "error" response) as [[]|] eqn:Hin; try done.
      intros [= <-]. by exists d, response.
    + intros (env & response & -> & Hresponse & Hin & ->). simpl.
      rewrite Hresponse. unfold _check_errors. by rewrite Hin.
  - by intros e ->.
  - intros env -> Hresponse. simpl. by rewrite Hresponse.
Qed.

End Probe.

Lemma probe_reads_one_url_witness :
  match
    __post_init__ urlencode_plain
      (λ _, Fetched (PDict (<["response" := PList []]> ∅)))
      "mytoken" (PStr "5.133") 1%positive "api.vk.com" (λ v : pyval, v),
    __post_init__ urlencode_plain
      (λ url, if String.eqb url "https://api.vk.com/method/users.get?access_token=mytoken&v=5.133"
              then Fetched (PDict (<["response" := PList []]> ∅))
              else FetchRaises (External "unreachable"))
      "mytoken" (PStr "5.133") 1%positive "localhost" (λ v : pyval, v)
  with
  | Return api, Return api' =>
      token_owner api = token_owner api' ∧ _delay api = _delay api'
      ∧ host api = "api.vk.com" ∧ host api' = "localhost"
  | Raise e, Raise e' => e = e'
  | _, _ => False
  end.
Proof.
  apply (probe_reads_one_url urlencode_plain "mytoken" (PStr "5.133") 1%positive (λ v : pyval, v)
           (λ _, Fetched (PDict (<["response" := PList []]> ∅)))
           (λ url, if String.eqb url "https://api.vk.com/method/users.get?access_token=mytoken&v=5.133"
                   then Fetched (PDict (<["response" := PList []]> ∅))
                   else FetchRaises (External "unreachable"))
           "api.vk.com" "localhost").
  reflexivity.
Defined.

Lemma probe_classifies_user_lists_witness :
  (∃ api, __post_init__ urlencode_plain
            (λ _, Fetched (PDict (<["response" := PList []]> ∅)))
            "mytoken" (PStr "5.133") 1%positive "api.vk.com" (λ v : pyval, v) = Return api
          ∧ token_owner api = GROUP ∧ _delay api = (1 # 20)%Q)
  ∧ (∃ api, __post_init__ urlencode_plain
              (λ _, Fetched (PDict (<["response" := PList [PDict (<["id" := PInt 1]> ∅)]]> ∅)))
              "mytoken" (PStr "5.133") 1%positive "api.vk.com" (λ v : pyval, v) = Return api
            ∧ token_owner api = USER ∧ _delay api = (1 # 3)%Q).
Proof.
  split.
  - destruct (probe_classifies_user_lists urlencode_plain "mytoken" (PStr "5.133") 1%positive
                (λ v : pyval, v) (λ _, Fetched (PDict (<["response" := PList []]> ∅)))
                "api.vk.com" (<["response" := PList []]> ∅) [])
      as (api & Hbuilt & Howner & Hdelay & _); [done..|].
    by exists api.
  - destruct (probe_classifies_user_lists urlencode_plain "mytoken" (PStr "5.133") 1%positive
                (λ v : pyval, v)
                (λ _, Fetched (PDict (<["response" := PList [PDict (<["id" := PInt 1]> ∅)]]> ∅)))
                "api.vk.com" (<["response" := PList [PDict (<["id" := PInt 1]> ∅)]]> ∅)
                [PDict (<["id" := PInt 1]> ∅)])
      as (api & Hbuilt & Howner & Hdelay & _); [done..|].
    by exists api.
Defined.

Lemma post_init_outcomes_witness :
  __post_init__ urlencode_plain (λ _, Fetched bad_token_envelope)
    "mytoken" (PStr "5.133") 1%positive "api.vk.com" (λ v : pyval, v)
  = Raise (KeyError "response")
  ∧ __post_init__ urlencode_plain (λ _, FetchRaises (External "unreachable"))
      "mytoken" (PStr "5.133") 1%positive "api.vk.com" (λ v : pyval, v)
    = Raise (External "unreachable")
  ∧ __post_init__ urlencode_plain
      (λ _, Fetched (PDict (<["response" := PList [PDict (<["id" := PInt 1]> ∅)]]> ∅)))
      "mytoken" (PStr "5.133") 1%positive "api.vk.com" (λ v : pyval, v)
    = Return user_client.
Proof.
  split; [|split].
  - destruct (post_init_outcomes urlencode_plain "mytoken" (PStr "5.133") 1%positive
                (λ v : pyval, v) (λ _, Fetched bad_token_envelope) "api.vk.com")
      as (_ & _ & Hkey).
    exact (Hkey _ eq_refl eq_refl).
  - destruct (post_init_outcomes urlencode_plain "mytoken" (PStr "5.133") 1%positive
                (λ v : pyval, v) (λ _, FetchRaises (External "unreachable")) "api.vk.com")
      as (_ & Hraise & _).
    exact (Hraise _ eq_refl).
  - destruct (post_init_outcomes urlencode_plain "mytoken" (PStr "5.133") 1%positive
                (λ v : pyval, v)
                (λ _, Fetched (PDict (<["response" := PList [PDict (<["id" := PInt 1]> ∅)]]> ∅)))
                "api.vk.com")
      as (Hiff & _).
    apply Hiff.
    exists (<["response" := PList [PDict (<["id" := PInt 1]> ∅)]]> ∅),
           (PList [PDict (<["id" := PInt 1]> ∅)]).
    done.
Defined.

Section Wire.

Context (py_str : pyval → string) (urlencode : dict → string) {W : Type}.

(** X17: what [method] puts on the wire.  The one query written by the
    request that [method] returns has the converted method name as its path,
    the encoding of the flattened merge of the defaults and the caller's
    parameters as its query string, and the client's [host] as its [Host]
    header; the caller's dict is not the dict that was encoded. *)
Theorem method_writes_query (w : world W) (method_name : string) (request_params : loc)
    (supplied : dict) (now : Q) (transport : string → reply) :
  objects w !! request_params = Some supplied →
  let invoked := method w method_name request_params in
  let run := await py_str urlencode invoked.1 invoked.2 now transport in
  let merged :=
    dict_update (<["v" := version (self w)]> (<["access_token" := PStr (token (self w))]> ∅))
                supplied in
  written run.1
  = ("GET /method/" ++ _convert_name method_name ++ "?"
     ++ urlencode (flatten_request_params py_str merged)
     ++ " HTTP/1.1" ++ LF ++ "Host: " ++ host (self w) ++ LF ++ LF) :: written w
  ∧ objects run.1 !! request_params = Some supplied.
Proof.
  intros Hsupplied invoked run merged.
  pose proof (fresh_not_live _ _ _ Hsupplied) as Hfresh.
  subst run. unfold await.
  destruct (make_api_request_spec py_str urlencode invoked.1 (co_method_name invoked.2)
              (co_request_params invoked.2) now transport) as (-> & _ & -> & _).
  subst invoked. unfold method, _fill_request_params, alloc, query_of. simpl.
  rewrite deref_insert_eq, (deref_lookup _ _ _ Hsupplied).
  split; [done|].
  by rewrite !lookup_insert_ne.
Qed.

End Wire.

Lemma method_writes_query_witness :
  written (await str_scalar urlencode_plain
             (method sample_world "users.get_by_id" 2%positive).1
             (method sample_world "users.get_by_id" 2%positive).2
             1%Q (λ _, Loaded bad_token_envelope)).1
  = ["GET /method/users.getById?user_ids=1,2,3&access_token=mytoken&v=5.81 HTTP/1.1" ++ LF
     ++ "Host: api.vk.com" ++ LF ++ LF].
Proof.
  destruct (method_writes_query str_scalar urlencode_plain sample_world "users.get_by_id"
              2%positive
              (<["v" := PStr "5.81"]> (<["user_ids" := PList [PInt 1; PInt 2; PInt 3]]> ∅))
              1%Q (λ _, Loaded bad_token_envelope) eq_refl) as [Hwritten _].
  rewrite Hwritten. reflexivity.
Defined.
